(** * YouTube-Downloader: the filename allocator, the sanitizer, the quality
    tables and the interactive loops of the three scripts

    Sources: [ytmediadownload.py], [ytmediaqualityselect.py] and
    [ytmediadownload.py.py].  The three scripts share
    [generate_unique_filename] verbatim; the two later ones share
    [download_video] and the body of [convert_to_mp3].

    How the scripts are read:
    - a [str] is a list of code points, a [pathlib.Path] is a parsed POSIX
      path, and the filesystem is the finite set of paths that exist;
    - [Path.exists] is read twice: [exists_] is its answer when the
      operating system answers, and the three [main] are run on such a
      system; [path_exists] and [generate_unique_filename_os] read the
      allocator on an operating system that may refuse a [stat], in which
      case [Path.exists] lets the [OSError] out;
    - [yt_dlp], [ffmpeg], [shutil.which], [Path.home] and [str.lower] are
      parameters ([Env]); a collaborator call either succeeds or raises its
      documented error, and may change the filesystem in any way; the
      dict that [extract_info] answers holds strings;
    - the user is a finite list of typed lines; a program that calls
      [input] when every line has been read is [Waiting], it does not exit
      (end of file and interrupts are not lines);
    - a [while True] loop takes fuel; [Diverged] is the outcome of a loop
      that runs out of it, which the last part of the file shows never
      happens. *)

From Stdlib Require Import Ascii DecimalNat.
From stdpp Require Import base numbers strings list gmap fin_sets.

Local Open Scope N_scope.
Local Open Scope nat_scope.

(** ** Python strings *)

(** A Python [str] is a sequence of Unicode code points.  Literals are
    written as Rocq strings and converted byte by byte, which is exact for
    the ASCII literals the scripts use. *)
Definition char : Type := N.
Definition str : Type := list char.

Fixpoint py (s : string) : str :=
  match s with
  | EmptyString => []
  | String a s' => N_of_ascii a :: py s'
  end.

(** [str(i)] for a non-negative [int]: the decimal digits, most
    significant first, ['0'] being code point 48. *)
Fixpoint digits (u : Decimal.uint) : str :=
  match u with
  | Decimal.Nil => []
  | Decimal.D0 u => 48%N :: digits u
  | Decimal.D1 u => 49%N :: digits u
  | Decimal.D2 u => 50%N :: digits u
  | Decimal.D3 u => 51%N :: digits u
  | Decimal.D4 u => 52%N :: digits u
  | Decimal.D5 u => 53%N :: digits u
  | Decimal.D6 u => 54%N :: digits u
  | Decimal.D7 u => 55%N :: digits u
  | Decimal.D8 u => 56%N :: digits u
  | Decimal.D9 u => 57%N :: digits u
  end.

Definition str_of_int (i : nat) : str := digits (Nat.to_uint i).

(** [s.split(sep)] for a one-character separator: the maximal pieces
    between separators, empty pieces kept; never the empty list. *)
Fixpoint split (sep : char) (s : str) : list str :=
  match s with
  | [] => [[]]
  | c :: s' =>
      if decide (c = sep) then [] :: split sep s'
      else match split sep s' with
           | [] => [[c]]
           | w :: ws => (c :: w) :: ws
           end
  end.

(** [sep.join(l)] *)
Fixpoint join (sep : str) (l : list str) : str :=
  match l with
  | [] => []
  | [w] => w
  | w :: l' => w ++ sep ++ join sep l'
  end.

(** [s.startswith(prefix)] *)
Fixpoint startswith (prefix s : str) : bool :=
  match prefix, s with
  | [], _ => true
  | _ :: _, [] => false
  | a :: prefix', b :: s' => bool_decide (a = b) && startswith prefix' s'
  end.

(** ** pathlib, POSIX flavour *)

(** A [pathlib.Path] after parsing: the root (empty, ["/"] or ["//"]) and
    the components.  Parsing drops empty components and ["."]; [".."] is
    kept. *)
Record Path : Type := mkPath { root : str; parts : list str }.

Definition sep : char := 47%N.
Definition dot : str := [46%N].

Definition posix_root (s : str) : str :=
  match s with
  | a :: b :: c :: _ =>
      if decide (a = sep) then
        if decide (b = sep) then
          if decide (c = sep) then [sep] else [sep; sep]
        else [sep]
      else []
  | [a; b] =>
      if decide (a = sep) then
        if decide (b = sep) then [sep; sep] else [sep]
      else []
  | [a] => if decide (a = sep) then [sep] else []
  | [] => []
  end.

Definition is_part (x : str) : Prop := x ≠ [] ∧ x ≠ dot.

Global Instance is_part_dec x : Decision (is_part x).
Proof. unfold is_part. apply _. Defined.

Definition parse_parts (s : str) : list str := filter is_part (split sep s).

(** [Path(s)] *)
Definition parse_path (s : str) : Path :=
  {| root := posix_root s; parts := parse_parts s |}.

(** [p / key]: an absolute [key] replaces [p]; otherwise its components
    are appended. *)
Definition truediv (p : Path) (key : str) : Path :=
  if startswith [sep] key then parse_path key
  else {| root := root p; parts := parts p ++ parse_parts key |}.

Declare Scope path_scope.
Infix "/" := truediv : path_scope.
Delimit Scope path_scope with path.
Bind Scope path_scope with Path.

(** [str(p)] *)
Definition path_str (p : Path) : str :=
  match root p, parts p with
  | [], [] => dot
  | r, ps => r ++ join [sep] ps
  end.

Global Instance Path_eq_dec : EqDecision Path.
Proof. solve_decision. Defined.

Global Instance Path_countable : Countable Path.
Proof.
  refine (inj_countable' (fun p => (root p, parts p))
                         (fun '(r, ps) => mkPath r ps) _).
  by intros [].
Defined.

(** ** The filesystem, as far as [Path.exists] sees it *)

(** The directory state is the finite set of paths that exist. *)
Definition exists_ (fs : gset Path) (p : Path) : bool := bool_decide (p ∈ fs).

(** ** [generate_unique_filename] (identical in the three scripts) *)

(** The loop
<<
    while base_file.exists():
        base_file = output_path / f"{title}_{i}.{extension}"
        i += 1
>>
    with [fuel] bounding the number of times the condition is evaluated.
    The source has no bound; [None] means the fuel ran out. *)
Fixpoint probe (fuel : nat) (fs : gset Path) (output_path : Path)
    (title extension : str) (base_file : Path) (i : nat) : option Path :=
  match fuel with
  | O => None
  | S fuel' =>
      if exists_ fs base_file then
        probe fuel' fs output_path title extension
          (output_path / (title ++ py "_" ++ str_of_int i ++ py "." ++ extension))%path
          (i + 1)
      else Some base_file
  end.

Definition generate_unique_filename (fuel : nat) (fs : gset Path)
    (output_path : Path) (title extension : str) : option Path :=
  let base_file := (output_path / (title ++ py "." ++ extension))%path in
  probe fuel fs output_path title extension base_file 1.

(** The probe sequence: [candidate 0] is the unsuffixed name, [candidate i]
    for [i >= 1] carries the suffix [_i]. *)
Definition candidate (output_path : Path) (title extension : str) (k : nat) : Path :=
  match k with
  | O => (output_path / (title ++ py "." ++ extension))%path
  | S _ => (output_path / (title ++ py "_" ++ str_of_int k ++ py "." ++ extension))%path
  end.

(** The infix that distinguishes the candidates: ["."] for the base name,
    ["_i."] for the suffixed ones. *)
Definition infix_of (k : nat) : str :=
  match k with
  | O => py "."
  | S _ => py "_" ++ str_of_int k ++ py "."
  end.

(** ** Python values used by the scripts *)

(** [d.get(key, default)]; the key may be [None], which no table holds. *)
Definition dict_get (d : gmap str str) (key : option str) (default_ : str) : str :=
  match key with
  | Some k => default default_ (d !! k)
  | None => default_
  end.

(** [s.replace(old, new)] for a one-character [old]: every occurrence is
    replaced, left to right. *)
Definition replace (old : char) (new : str) (s : str) : str :=
  s ≫= (fun c => if decide (c = old) then new else [c]).

(** [c.isspace()] *)
Definition isspace (c : char) : bool :=
  bool_decide (c ∈ [9; 10; 11; 12; 13; 28; 29; 30; 31; 32; 133; 160; 5760;
                    8192; 8193; 8194; 8195; 8196; 8197; 8198; 8199; 8200;
                    8201; 8202; 8232; 8233; 8239; 8287; 12288]%N).

Fixpoint lstrip (s : str) : str :=
  match s with
  | c :: s' => if isspace c then lstrip s' else s
  | [] => []
  end.

(** [s.strip()] *)
Definition strip (s : str) : str := reverse (lstrip (reverse (lstrip s))).

(** Truth value of a [str] or [None]. *)
Definition truthy (v : option str) : bool :=
  match v with
  | Some (_ :: _) => true
  | _ => false
  end.

(** [str(v)] for a [str] or [None], as an f-string prints it. *)
Definition str_of (v : option str) : str :=
  match v with
  | Some s => s
  | None => py "None"
  end.

(** [repr(s)]: single quotes unless the string holds a single quote and
    no double quote; the quote in use and the backslash are escaped, tab,
    newline and carriage return are written [\t], [\n] and [\r], every
    other character below 256 that is not printable is written [\xhh].
    Code points from 256 on are copied: the Unicode table that tells which
    of them Python escapes is not part of the scripts. *)
Definition hex_digit (n : N) : char :=
  if (n <? 10)%N then (48 + n)%N else (87 + n)%N.

Definition repr_char (quote : char) (c : char) : str :=
  if decide (c = quote ∨ c = 92%N) then [92%N; c]
  else if decide (c = 9%N) then [92%N; 116%N]
  else if decide (c = 10%N) then [92%N; 110%N]
  else if decide (c = 13%N) then [92%N; 114%N]
  else if decide ((c < 32)%N ∨ (127 ≤ c ≤ 160)%N ∨ c = 173%N)
       then [92%N; 120%N; hex_digit (c / 16)%N; hex_digit (c mod 16)%N]
  else [c].

Definition repr (s : str) : str :=
  let quote :=
    if bool_decide (39%N ∈ s) && negb (bool_decide (34%N ∈ s)) then 34%N else 39%N in
  [quote] ++ (s ≫= repr_char quote) ++ [quote].

(** ** The outside world *)

Inductive Level : Type := INFO | ERROR.

(** The options handed to [yt_dlp.YoutubeDL]. *)
Record YdlOpts : Type := mkYdlOpts {
  format : str;
  outtmpl : str;
  postprocessors : list (list (str * str));
  merge_output_format : option str
}.

(** What the program does to the outside world, in order. *)
Inductive Event : Type :=
| Prompted (prompt : str)
| Logged (level : Level) (msg : str)
| MadeDirs (p : Path)
| ExtractedInfo (opts : YdlOpts) (url : str)
| Downloaded (opts : YdlOpts) (urls : list str)
| RanFfmpeg (input output : str) (kwargs : list (str * str))
| Unlinked (p : Path)
| Renamed (src dst : Path)
| Touched (p : Path).

(** The exceptions that travel through the scripts as they are read
    here: the two that the scripts catch by name and the one that their
    own file operations raise on a missing path. *)
Inductive Exn : Type :=
| DownloadError (msg : str)
| FfmpegError (msg : str)
| FileNotFoundError (msg : str).

(** [str(e)] *)
Definition exn_str (e : Exn) : str :=
  match e with
  | DownloadError msg | FfmpegError msg | FileNotFoundError msg => msg
  end.

(** The state: the paths that exist, the lines the user has typed and the
    program has not read yet, and the events so far. *)
Record World : Type := mkWorld {
  files : gset Path;
  stdin : list str;
  trace : list Event
}.

Definition emit (e : Event) (w : World) : World :=
  {| files := files w; stdin := stdin w; trace := trace w ++ [e] |}.

Definition set_files (fs : gset Path) (w : World) : World :=
  {| files := fs; stdin := stdin w; trace := trace w |}.

Definition set_stdin (l : list str) (w : World) : World :=
  {| files := files w; stdin := l; trace := trace w |}.

(** What a collaborator answers: it fails with a message or succeeds. *)
Inductive Attempt (A : Type) : Type :=
| Failed (msg : str)
| Succeeded (a : A).
Arguments Failed {A} msg.
Arguments Succeeded {A} a.

(** The collaborators and the parts of the platform the scripts consult.
    Each collaborator call is given the number of events so far, so that
    two calls with the same arguments may answer differently, and may
    change the filesystem as it likes.  [lower] is [str.lower], whose
    Unicode tables are not part of the scripts. *)
Record Env : Type := mkEnv {
  home : Path;
  which : str → option str;
  lower : str → str;
  extract_info : nat → YdlOpts → str → Attempt (gmap str str);
  download : nat → YdlOpts → list str → gset Path → Attempt unit * gset Path;
  ffmpeg_run : nat → str → str → list (str * str) → gset Path →
               Attempt unit * gset Path
}.

(** ** Computations *)

(** How a computation ends: with a value, with an exception on its way
    up, blocked in [input()] because every typed line has been read, or
    out of loop fuel. *)
Inductive Outcome (A : Type) : Type :=
| Returned (a : A)
| Raised (e : Exn)
| Waiting
| Diverged.
Arguments Returned {A} a.
Arguments Raised {A} e.
Arguments Waiting {A}.
Arguments Diverged {A}.

Definition M (A : Type) : Type := World → Outcome A * World.

Definition ret {A} (a : A) : M A := fun w => (Returned a, w).

Definition bind {A B} (m : M A) (k : A → M B) : M B := fun w =>
  match m w with
  | (Returned a, w') => k a w'
  | (Raised e, w') => (Raised e, w')
  | (Waiting, w') => (Waiting, w')
  | (Diverged, w') => (Diverged, w')
  end.

Declare Scope m_scope.
Delimit Scope m_scope with M.
Bind Scope m_scope with M.
Notation "'let*' x := m 'in' k" := (bind m (fun x => k))
  (at level 10, x pattern, m at level 100, k at level 200) : m_scope.
Notation "m ;; k" := (bind m (fun _ => k))
  (at level 100, k at level 200, right associativity) : m_scope.
Local Open Scope m_scope.

(** [try: m except <the exceptions handler accepts> as e: handler e] *)
Definition try_except {A} (m : M A) (handler : Exn → option (M A)) : M A := fun w =>
  match m w with
  | (Raised e, w') =>
      match handler e with
      | Some h => h w'
      | None => (Raised e, w')
      end
  | r => r
  end.

(** [while True: body], where the body answers [Some a] to leave the loop
    with [a] and [None] to go round again. *)
Fixpoint while_true {A} (fuel : nat) (body : M (option A)) : M A := fun w =>
  match fuel with
  | O => (Diverged, w)
  | S fuel' =>
      match body w with
      | (Returned (Some a), w') => (Returned a, w')
      | (Returned None, w') => while_true fuel' body w'
      | (Raised e, w') => (Raised e, w')
      | (Waiting, w') => (Waiting, w')
      | (Diverged, w') => (Diverged, w')
      end
  end.

(** A loop each of whose turns reads a line before it goes round again
    makes at most one turn per unread line, and one more that blocks. *)
Definition while_input {A} (body : M (option A)) : M A := fun w =>
  while_true (S (length (stdin w))) body w.

(** [input(prompt)] *)
Definition input (prompt : str) : M str := fun w =>
  match stdin w with
  | [] => (Waiting, emit (Prompted prompt) w)
  | line :: rest => (Returned line, set_stdin rest (emit (Prompted prompt) w))
  end.

(** [logging.info(msg)], [logging.error(msg)] *)
Definition logging (level : Level) (msg : str) : M unit := fun w =>
  (Returned tt, emit (Logged level msg) w).

Fixpoint inits {A} (l : list A) : list (list A) :=
  match l with
  | [] => [[]]
  | x :: l' => [] :: ((x ::.) <$> inits l')
  end.

(** [p.mkdir(parents=True, exist_ok=True)] *)
Definition mkdir_parents (p : Path) : M unit := fun w =>
  (Returned tt,
   set_files (files w ∪ list_to_set (mkPath (root p) <$> inits (parts p)))
             (emit (MadeDirs p) w)).

(** The [FileNotFoundError] of a system call on one path, on two paths,
    and of [os.utime], whose error carries no file name. *)
Definition no_such_file (p : Path) : Exn :=
  FileNotFoundError (py "[Errno 2] No such file or directory: " ++ repr (path_str p)).

Definition no_such_files (src dst : Path) : Exn :=
  FileNotFoundError (py "[Errno 2] No such file or directory: "
                     ++ repr (path_str src) ++ py " -> " ++ repr (path_str dst)).

Definition no_such_file_unnamed : Exn :=
  FileNotFoundError (py "[Errno 2] No such file or directory").

(** [p.unlink()], [os.remove(p)]; it raises when the path is missing. *)
Definition unlink (p : Path) : M unit := fun w =>
  if exists_ (files w) p
  then (Returned tt, set_files (files w ∖ {[ p ]}) (emit (Unlinked p) w))
  else (Raised (no_such_file p), emit (Unlinked p) w).

(** [src.rename(dst)]; it raises when the source is missing. *)
Definition rename (src dst : Path) : M unit := fun w =>
  if exists_ (files w) src
  then (Returned tt, set_files (files w ∖ {[ src ]} ∪ {[ dst ]}) (emit (Renamed src dst) w))
  else (Raised (no_such_files src dst), emit (Renamed src dst) w).

(** [os.utime(p, None)]; it raises when the path is missing. *)
Definition utime (p : Path) : M unit := fun w =>
  if exists_ (files w) p
  then (Returned tt, emit (Touched p) w)
  else (Raised no_such_file_unnamed, emit (Touched p) w).

(** [generate_unique_filename] run on the current directory state, with
    one evaluation of the loop condition more than there are paths; the
    operating system answers every [stat]. *)
Definition unique_filename (output_path : Path) (title extension : str) : M Path := fun w =>
  match generate_unique_filename (S (size (files w))) (files w)
          output_path title extension with
  | Some p => (Returned p, w)
  | None => (Diverged, w)
  end.

(** ** [generate_unique_filename] when [Path.exists] may raise *)

(** [Path.exists] calls [stat].  It answers [False] when the error says
    that the path is not there and lets every other [OSError] out (pathlib
    of Python 3.11), for instance the one for a name longer than the
    filesystem allows.  The operating system is the set of paths that
    exist and, for the paths whose [stat] it refuses, the message of the
    error. *)
Record OS : Type := mkOS {
  present : gset Path;
  stat_error : Path → option str
}.

(** [p.exists()]: [Failed msg] is the [OSError] that [exists] lets out. *)
Definition path_exists (os : OS) (p : Path) : Attempt bool :=
  match stat_error os p with
  | Some msg => Failed msg
  | None => Succeeded (exists_ (present os) p)
  end.

(** How a call of the allocator ends: with [return base_file], with an
    [OSError] on its way up (no [try] surrounds the loop), or out of fuel. *)
Inductive Allocation : Type :=
| Allocated (base_file : Path)
| OSError (msg : str)
| OutOfFuel.

(** The loop of [generate_unique_filename] again, its condition being
    [path_exists]. *)
Fixpoint probe_os (fuel : nat) (os : OS) (output_path : Path)
    (title extension : str) (base_file : Path) (i : nat) : Allocation :=
  match fuel with
  | O => OutOfFuel
  | S fuel' =>
      match path_exists os base_file with
      | Failed msg => OSError msg
      | Succeeded true =>
          probe_os fuel' os output_path title extension
            (output_path / (title ++ py "_" ++ str_of_int i ++ py "." ++ extension))%path
            (i + 1)
      | Succeeded false => Allocated base_file
      end
  end.

Definition generate_unique_filename_os (fuel : nat) (os : OS)
    (output_path : Path) (title extension : str) : Allocation :=
  let base_file := (output_path / (title ++ py "." ++ extension))%path in
  probe_os fuel os output_path title extension base_file 1.

Section collaborators.
Context (env : Env).

(** [ydl.extract_info(url, download=False)] *)
Definition ydl_extract_info (opts : YdlOpts) (url : str) : M (gmap str str) := fun w =>
  let w' := emit (ExtractedInfo opts url) w in
  match extract_info env (length (trace w)) opts url with
  | Failed msg => (Raised (DownloadError msg), w')
  | Succeeded info => (Returned info, w')
  end.

(** [ydl.download(urls)] *)
Definition ydl_download (opts : YdlOpts) (urls : list str) : M unit := fun w =>
  let '(r, fs') := download env (length (trace w)) opts urls (files w) in
  let w' := set_files fs' (emit (Downloaded opts urls) w) in
  match r with
  | Failed msg => (Raised (DownloadError msg), w')
  | Succeeded _ => (Returned tt, w')
  end.

(** [ffmpeg.input(input).output(output, **kwargs).run()] *)
Definition ffmpeg (input output : str) (kwargs : list (str * str)) : M unit := fun w =>
  let '(r, fs') := ffmpeg_run env (length (trace w)) input output kwargs (files w) in
  let w' := set_files fs' (emit (RanFfmpeg input output kwargs) w) in
  match r with
  | Failed msg => (Raised (FfmpegError msg), w')
  | Succeeded _ => (Returned tt, w')
  end.
End collaborators.

(** ** [ytmediadownload.py] *)

Module YtMediaDownload.

Definition invalid_chars : str := py "<>:" ++ [34%N] ++ py "/\|?*".

Definition sanitize_filename (title : str) : str :=
  foldl (fun title char => replace char (py "_") title) title invalid_chars.

(** What [sanitize_filename] is shown to do to one character. *)
Definition sanitize_char (c : char) : char :=
  if bool_decide (c ∈ invalid_chars) then 95%N else c.

Section with_env.
Context (env : Env).

(** The [ydl_opts] of [download_media]. *)
Definition ydl_opts (download_path : Path) (format_choice : str) : YdlOpts :=
  if decide (format_choice = py "mp3") then
    {| format := py "bestaudio/best";
       outtmpl := path_str (download_path / py "audio.%(ext)s");
       postprocessors :=
         [[(py "key", py "FFmpegExtractAudio");
           (py "preferredcodec", py "m4a");
           (py "preferredquality", py "192")]];
       merge_output_format := None |}
  else
    {| format := py "bestvideo+bestaudio/best";
       outtmpl := path_str (download_path / py "video.%(ext)s");
       postprocessors := [];
       merge_output_format := Some (py "mp4") |}.

Definition download_media (url : str) (download_path : Path) (format_choice : str)
    : M (option Path * option str) :=
  let ydl_opts := ydl_opts download_path format_choice in
  try_except
    (let* info := ydl_extract_info env ydl_opts url in
     let title := dict_get info (Some (py "title")) (py "video") in
     let title := sanitize_filename title in
     ydl_download env ydl_opts [url] ;;
     logging INFO (py "Download complete.") ;;
     ret (if decide (format_choice = py "mp3")
          then (Some (download_path / py "audio.m4a")%path, Some title)
          else (Some (download_path / py "video.mp4")%path, Some title)))
    (fun e =>
       match e with
       | DownloadError _ =>
           Some (logging ERROR (py "Download error: " ++ exn_str e) ;;
                 ret (None, None))
       | _ => None
       end).

Definition convert_to_mp3 (input_file output_path : Path) (title : str)
    : M (option Path) :=
  let* output_file := unique_filename output_path title (py "mp3") in
  try_except
    (ffmpeg env (path_str input_file) (path_str output_file)
       [(py "audio_bitrate", py "192k")] ;;
     logging INFO (py "Conversion to MP3 complete.") ;;
     ret (Some output_file))
    (fun e =>
       match e with
       | FfmpegError _ =>
           Some (logging ERROR (py "Conversion error: " ++ exn_str e) ;;
                 ret None)
       | _ => None
       end).

Definition reencode_to_mp4 (input_file output_file : Path) : M (option Path) :=
  try_except
    (ffmpeg env (path_str input_file) (path_str output_file)
       [(py "vcodec", py "libx264"); (py "acodec", py "aac");
        (py "audio_bitrate", py "192k")] ;;
     logging INFO (py "Re-encoding to MP4 complete.") ;;
     ret (Some output_file))
    (fun e =>
       match e with
       | FfmpegError _ =>
           Some (logging ERROR (py "Re-encoding error: " ++ exn_str e) ;;
                 ret None)
       | _ => None
       end).

Definition prompt_user_input : M (str * str) :=
  let* url :=
    while_input
      (let* url := input (py "Enter the URL of the YouTube video: ") in
       if startswith (py "https://www.youtube.com/") url then ret (Some url)
       else
         logging ERROR (py "Invalid YouTube URL. Please provide a valid URL.") ;;
         ret None) in
  let* format_choice :=
    while_input
      (let* line := input (py "Choose format (mp3/mp4): ") in
       let format_choice := lower env (strip line) in
       if bool_decide (format_choice ∈ [py "mp3"; py "mp4"])
       then ret (Some format_choice)
       else
         logging ERROR (py "Invalid choice. Please choose 'mp3' or 'mp4'.") ;;
         ret None) in
  ret (url, format_choice).

Definition prompt_continue : M str :=
  while_input
    (let* line := input (py "Do you want to download another video? (yes/no): ") in
     let continue_choice := lower env (strip line) in
     if bool_decide (continue_choice ∈ [py "yes"; py "no"])
     then ret (Some continue_choice)
     else
       logging ERROR (py "Invalid input. Please enter 'yes' or 'no'.") ;;
       ret None).

(** One turn of the [while True] of [main]; [Some tt] is [break]. *)
Definition main_loop_body (download_path : Path) : M (option unit) :=
  let* (url, format_choice) := prompt_user_input in
  let* (file_path, title) := download_media url download_path format_choice in
  match file_path, title with
  | Some file_path, Some ((_ :: _) as title) =>
      if decide (format_choice = py "mp3") then
        logging INFO (py "Attempting to convert " ++ path_str file_path
                      ++ py " to MP3...") ;;
        let* mp3_file := convert_to_mp3 file_path download_path title in
        match mp3_file with
        | Some mp3_file =>
            logging INFO (py "MP3 file saved as: " ++ path_str mp3_file)
        | None => logging ERROR (py "Failed to convert to MP3.")
        end ;;
        try_except (unlink file_path)
          (fun e =>
             Some (logging ERROR (py "Error removing temporary file: "
                                  ++ exn_str e)))
      else
        let* output_file := unique_filename download_path title (py "mp4") in
        let* reencoded := reencode_to_mp4 file_path output_file in
        match reencoded with
        | Some _ =>
            unlink file_path ;;
            logging INFO (py "MP4 file saved as: " ++ path_str output_file)
        | None => logging ERROR (py "Failed to re-encode MP4 file.")
        end
  | _, _ => ret tt
  end ;;
  let* continue_choice := prompt_continue in
  if decide (continue_choice ≠ py "yes") then ret (Some tt) else ret None.

Definition main : M unit :=
  let download_path := (home env / py "Downloads")%path in
  mkdir_parents download_path ;;
  if negb (truthy (which env (py "ffmpeg"))) then
    logging ERROR
      (py "ffmpeg is not installed. Please install it to use this script.")
  else
    while_input (main_loop_body download_path).

(** The download collaborator signals a failure to [download_media]
    started in [w]: [extract_info] raises [DownloadError msg], or it
    answers and [download] raises it; [w1] is the world right after
    the failing call. *)
Definition fetch_fails (download_path : Path) (url format_choice : str)
    (w : World) (msg : str) (w1 : World) : Prop :=
  let opts := ydl_opts download_path format_choice in
  ydl_extract_info env opts url w = (Raised (DownloadError msg), w1) ∨
  ∃ info w',
    ydl_extract_info env opts url w = (Returned info, w') ∧
    ydl_download env opts [url] w' = (Raised (DownloadError msg), w1).

(** The last two lines of the loop body of [main]. *)
Definition ask_to_continue : M (option unit) :=
  let* continue_choice := prompt_continue in
  if decide (continue_choice ≠ py "yes") then ret (Some tt) else ret None.

End with_env.
End YtMediaDownload.

(** ** [ytmediaqualityselect.py] *)

Module YtMediaQualitySelect.

Definition quality_formats : gmap str str :=
  {[ py "720p" := py "bestvideo[height<=720]+bestaudio/best";
     py "1080p" := py "bestvideo[height<=1080]+bestaudio/best";
     py "1440p" := py "bestvideo[height<=1440]+bestaudio/best" ]}.

Definition bitrates : gmap str str :=
  {[ py "low" := py "128k";
     py "medium" := py "192k";
     py "high" := py "320k" ]}.

(** The ['format'] entry of [ydl_opts_video] in [download_video]. *)
Definition video_format (video_quality : option str) : str :=
  dict_get quality_formats video_quality (py "bestvideo+bestaudio/best").

(** The [bitrate] of [convert_to_mp3]. *)
Definition bitrate_of (quality : option str) : str :=
  dict_get bitrates quality (py "192k").

Section with_env.
Context (env : Env).

Definition download_video (url : str) (download_path : Path)
    (format_choice audio_quality video_quality : option str)
    : M (option Path * option str) :=
  let ydl_opts_audio :=
    {| format := py "bestaudio/best";
       outtmpl := path_str (download_path / py "audio.%(ext)s");
       postprocessors :=
         [[(py "key", py "FFmpegExtractAudio");
           (py "preferredcodec", py "m4a");
           (py "preferredquality", py "192")]];
       merge_output_format := None |} in
  let ydl_opts_video :=
    {| format := video_format video_quality;
       outtmpl := path_str (download_path / py "video.%(ext)s");
       postprocessors := [];
       merge_output_format := Some (py "mp4") |} in
  let ydl_opts :=
    if decide (format_choice = Some (py "mp3"))
    then ydl_opts_audio else ydl_opts_video in
  try_except
    (let* info := ydl_extract_info env ydl_opts url in
     let title :=
       replace 92%N (py "_")
         (replace 47%N (py "_")
            (dict_get info (Some (py "title")) (py "video"))) in
     ydl_download env ydl_opts [url] ;;
     logging INFO (py "Download complete.") ;;
     ret (if decide (format_choice = Some (py "mp3"))
          then (Some (download_path / py "audio.m4a")%path, Some title)
          else (Some (download_path / py "video.mp4")%path, Some title)))
    (fun e =>
       match e with
       | DownloadError _ =>
           Some (logging ERROR (py "Download error: " ++ exn_str e) ;;
                 ret (None, None))
       | _ => None
       end).

Definition convert_to_mp3 (input_file output_path : Path) (title : str)
    (quality : option str) : M (option Path) :=
  let bitrate := bitrate_of quality in
  let* output_file := unique_filename output_path title (py "mp3") in
  try_except
    (ffmpeg env (path_str input_file) (path_str output_file)
       [(py "audio_bitrate", bitrate)] ;;
     logging INFO (py "Conversion to MP3 with " ++ str_of quality
                   ++ py " quality complete.") ;;
     ret (Some output_file))
    (fun e =>
       match e with
       | FfmpegError _ =>
           Some (logging ERROR (py "Conversion error: " ++ exn_str e) ;;
                 ret None)
       | _ => None
       end).

Definition prompt_user_input
    : M (option str * option str * option str * option str) :=
  let* url := input (py "Enter the URL of the YouTube video: ") in
  if negb (startswith (py "https://www.youtube.com/") url) then
    logging ERROR (py "Invalid YouTube URL. Please provide a valid URL.") ;;
    ret (None, None, None, None)
  else
    let* line := input (py "Choose format (mp3/mp4): ") in
    let format_choice := lower env (strip line) in
    if negb (bool_decide (format_choice ∈ [py "mp3"; py "mp4"])) then
      logging ERROR (py "Invalid choice. Please choose 'mp3' or 'mp4'.") ;;
      ret (None, None, None, None)
    else if decide (format_choice = py "mp3") then
      let* line := input (py "Choose audio quality (low/medium/high): ") in
      let audio_quality := lower env (strip line) in
      if negb (bool_decide (audio_quality ∈ [py "low"; py "medium"; py "high"])) then
        logging ERROR
          (py "Invalid choice. Please choose 'low', 'medium', or 'high'.") ;;
        ret (None, None, None, None)
      else ret (Some url, Some format_choice, Some audio_quality, None)
    else
      let* line := input (py "Choose video quality (720p/1080p/1440p): ") in
      let video_quality := lower env (strip line) in
      if negb (bool_decide (video_quality ∈ [py "720p"; py "1080p"; py "1440p"])) then
        logging ERROR
          (py "Invalid choice. Please choose '720p', '1080p', or '1440p'.") ;;
        ret (None, None, None, None)
      else ret (Some url, Some format_choice, Some (py "medium"), Some video_quality).

(** One turn of the [while True] of [main]; [Some tt] is [break],
    [None] is [continue] or the end of the body. *)
Definition main_loop_body (download_path : Path) : M (option unit) :=
  let* (url, format_choice, audio_quality, video_quality) := prompt_user_input in
  match url with
  | Some ((_ :: _) as url) =>
      let* (file_path, title) :=
        download_video url download_path format_choice audio_quality video_quality in
      match file_path, title with
      | Some file_path, Some ((_ :: _) as title) =>
          if decide (format_choice = Some (py "mp3")) then
            let* mp3_file :=
              convert_to_mp3 file_path download_path title audio_quality in
            match mp3_file with
            | Some mp3_file =>
                logging INFO (py "MP3 file saved as: " ++ path_str mp3_file)
            | None => logging ERROR (py "Failed to convert to MP3.")
            end ;;
            try_except (unlink file_path)
              (fun e =>
                 Some (logging ERROR (py "Error removing temporary file: "
                                      ++ exn_str e)))
          else
            let* output_file := unique_filename download_path title (py "mp4") in
            rename file_path output_file ;;
            utime output_file ;;
            logging INFO (py "MP4 file saved as: " ++ path_str output_file)
      | _, _ => ret tt
      end ;;
      let* line := input (py "Do you want to convert another video? (yes/no): ") in
      if decide (lower env (strip line) ≠ py "yes") then ret (Some tt) else ret None
  | _ => ret None
  end.

Definition main : M unit :=
  let download_path := (home env / py "Downloads")%path in
  mkdir_parents download_path ;;
  if negb (truthy (which env (py "ffmpeg"))) then
    logging ERROR
      (py "ffmpeg is not installed. Please install it to use this script.")
  else
    while_input (main_loop_body download_path).

End with_env.
End YtMediaQualitySelect.

(** ** [ytmediadownload.py.py] *)

(** [download_video] is the one of [ytmediaqualityselect.py] up to the text
    of the error message; [convert_to_mp3] likewise; [main] prompts inline
    and asks again when the answer to the last question is neither ['yes']
    nor ['no']. *)
Module YtMediaDownloadPy.

Definition quality_formats : gmap str str := YtMediaQualitySelect.quality_formats.
Definition bitrates : gmap str str := YtMediaQualitySelect.bitrates.
Definition video_format := YtMediaQualitySelect.video_format.
Definition bitrate_of := YtMediaQualitySelect.bitrate_of.

Section with_env.
Context (env : Env).

Definition download_video (url : str) (download_path : Path)
    (format_choice audio_quality video_quality : option str)
    : M (option Path * option str) :=
  let ydl_opts_audio :=
    {| format := py "bestaudio/best";
       outtmpl := path_str (download_path / py "audio.%(ext)s");
       postprocessors :=
         [[(py "key", py "FFmpegExtractAudio");
           (py "preferredcodec", py "m4a");
           (py "preferredquality", py "192")]];
       merge_output_format := None |} in
  let ydl_opts_video :=
    {| format := video_format video_quality;
       outtmpl := path_str (download_path / py "video.%(ext)s");
       postprocessors := [];
       merge_output_format := Some (py "mp4") |} in
  let ydl_opts :=
    if decide (format_choice = Some (py "mp3"))
    then ydl_opts_audio else ydl_opts_video in
  try_except
    (let* info := ydl_extract_info env ydl_opts url in
     let title :=
       replace 92%N (py "_")
         (replace 47%N (py "_")
            (dict_get info (Some (py "title")) (py "video"))) in
     ydl_download env ydl_opts [url] ;;
     logging INFO (py "Download complete.") ;;
     if decide (format_choice = Some (py "mp3"))
     then ret (Some (download_path / py "audio.m4a")%path, Some title)
     else ret (Some (download_path / py "video.mp4")%path, Some title))
    (fun e =>
       match e with
       | DownloadError _ =>
           Some (logging ERROR (py "An error occurred during download: "
                                ++ exn_str e) ;;
                 ret (None, None))
       | _ => None
       end).

Definition convert_to_mp3 (input_file output_path : Path) (title : str)
    (quality : option str) : M (option Path) :=
  let bitrate := bitrate_of quality in
  let* output_file := unique_filename output_path title (py "mp3") in
  try_except
    (ffmpeg env (path_str input_file) (path_str output_file)
       [(py "audio_bitrate", bitrate)] ;;
     logging INFO (py "Conversion to MP3 with " ++ str_of quality
                   ++ py " quality complete.") ;;
     ret (Some output_file))
    (fun e =>
       match e with
       | FfmpegError _ =>
           Some (logging ERROR (py "An error occurred during conversion: "
                                ++ exn_str e) ;;
                 ret None)
       | _ => None
       end).

(** The part of the loop body from the download on; [Some tt] is the
    [return] of [main], [None] the [break] of the inner loop. *)
Definition process (download_path : Path) (url : str)
    (format_choice audio_quality video_quality : option str) : M (option unit) :=
  let* (file_path, title) :=
    download_video url download_path format_choice audio_quality video_quality in
  match file_path, title with
  | Some file_path, Some ((_ :: _) as title) =>
      if decide (format_choice = Some (py "mp3")) then
        let* mp3_file :=
          convert_to_mp3 file_path download_path title audio_quality in
        match mp3_file with
        | Some mp3_file =>
            logging INFO (py "MP3 file saved as: " ++ path_str mp3_file)
        | None => logging ERROR (py "Failed to convert to MP3.")
        end ;;
        try_except (unlink file_path)
          (fun e =>
             Some (logging ERROR
                     (py "An error occurred while removing the temporary file: "
                      ++ exn_str e)))
      else
        let* output_file := unique_filename download_path title (py "mp4") in
        rename file_path output_file ;;
        utime output_file ;;
        logging INFO (py "MP4 file saved as: " ++ path_str output_file)
  | _, _ => ret tt
  end ;;
  let* another :=
    while_input
      (let* line := input (py "Do you want to convert another video? (yes/no): ") in
       let another := lower env (strip line) in
       if decide (another = py "yes") then ret (Some false)
       else if decide (another = py "no") then ret (Some true)
       else
         logging ERROR (py "Invalid input. Please enter 'yes' or 'no'.") ;;
         ret None) in
  if another : bool then ret (Some tt) else ret None.

(** One turn of the outer [while True] of [main]. *)
Definition main_loop_body (download_path : Path) : M (option unit) :=
  let* url := input (py "Enter the URL of the YouTube video: ") in
  if negb (startswith (py "https://www.youtube.com/") url) then
    logging ERROR (py "Invalid YouTube URL. Please provide a valid URL.") ;;
    ret None
  else
    let* line := input (py "Choose format (mp3/mp4): ") in
    let format_choice := lower env (strip line) in
    if negb (bool_decide (format_choice ∈ [py "mp3"; py "mp4"])) then
      logging ERROR (py "Invalid choice. Please choose 'mp3' or 'mp4'.") ;;
      ret None
    else if decide (format_choice = py "mp3") then
      let* line := input (py "Choose audio quality (low/medium/high): ") in
      let audio_quality := lower env (strip line) in
      if negb (bool_decide (audio_quality ∈ [py "low"; py "medium"; py "high"])) then
        logging ERROR
          (py "Invalid choice. Please choose 'low', 'medium', or 'high'.") ;;
        ret None
      else
        process download_path url (Some format_choice) (Some audio_quality) None
    else
      let* line := input (py "Choose video quality (720p/1080p/1440p): ") in
      let video_quality := lower env (strip line) in
      if negb (bool_decide (video_quality ∈ [py "720p"; py "1080p"; py "1440p"])) then
        logging ERROR
          (py "Invalid choice. Please choose '720p', '1080p', or '1440p'.") ;;
        ret None
      else
        process download_path url (Some format_choice) (Some (py "medium"))
          (Some video_quality).

Definition main : M unit :=
  let download_path := (home env / py "Downloads")%path in
  if negb (truthy (which env (py "ffmpeg"))) then
    logging ERROR
      (py "ffmpeg is not installed. Please install it to use this script.")
  else
    while_input (main_loop_body download_path).

End with_env.
End YtMediaDownloadPy.

(** ** Reading the typed lines *)

(** A computation that does not run out of fuel and does not put lines
    back. *)
Definition tame {A} (m : M A) : Prop :=
  ∀ w, fst (m w) ≠ Diverged ∧ length (stdin (snd (m w))) ≤ length (stdin w).

(** A computation that has read at least one line whenever it returns. *)
Definition consuming {A} (m : M A) : Prop :=
  ∀ w a w', m w = (Returned a, w') → length (stdin w') < length (stdin w).

(** ** What a computation may do *)

(** [m] adds nothing but events in [E] to the trace, lets out no exception
    outside [X] and returns no value outside [Q]. *)
Definition within {A} (E : Event → Prop) (X : Exn → Prop) (Q : A → Prop)
    (m : M A) : Prop :=
  ∀ w,
    (∃ evs, trace (snd (m w)) = trace w ++ evs ∧ Forall E evs) ∧
    match fst (m w) with
    | Returned a => Q a
    | Raised e => X e
    | _ => True
    end.

(** The two files a download is expected to leave in the download
    directory. *)
Definition temp_files (download_path : Path) : list Path :=
  [(download_path / py "audio.m4a")%path; (download_path / py "video.mp4")%path].

(** Events that remove, move or transcode nothing but a temporary file. *)
Definition spares_other_files (download_path : Path) (e : Event) : Prop :=
  match e with
  | Unlinked p => p ∈ temp_files download_path
  | Renamed src _ => src ∈ temp_files download_path
  | RanFfmpeg input _ _ => input ∈ path_str <$> temp_files download_path
  | _ => True
  end.

Definition is_file_not_found (e : Exn) : Prop :=
  match e with
  | FileNotFoundError _ => True
  | _ => False
  end.

Definition is_download_error (e : Exn) : Prop := ∃ msg, e = DownloadError msg.

Definition is_ffmpeg_error (e : Exn) : Prop := ∃ msg, e = FfmpegError msg.

(** ** The last question of the two later scripts *)

(** The last two lines of the loop body of [main] in
    [ytmediaqualityselect.py]. *)
Definition qualityselect_ask_to_continue (env : Env) : M (option unit) :=
  let* line := input (py "Do you want to convert another video? (yes/no): ") in
  if decide (lower env (strip line) ≠ py "yes") then ret (Some tt) else ret None.

(** The inner [while True] that ends the loop body of [main] in
    [ytmediadownload.py.py]; [Some tt] is its [return], [None] its
    [break]. *)
Definition py_ask_another (env : Env) : M (option unit) :=
  let* another :=
    while_input
      (let* line := input (py "Do you want to convert another video? (yes/no): ") in
       let another := lower env (strip line) in
       if decide (another = py "yes") then ret (Some false)
       else if decide (another = py "no") then ret (Some true)
       else
         logging ERROR (py "Invalid input. Please enter 'yes' or 'no'.") ;;
         ret None) in
  if another : bool then ret (Some tt) else ret None.

(** ** A sample environment *)

(** [str.lower] on ASCII letters; on a string of ASCII characters this is
    what Python computes. *)
Definition ascii_lower (s : str) : str :=
  (fun c => if bool_decide (65 ≤ c ∧ c ≤ 90)%N then (c + 32)%N else c) <$> s.

(** A machine with ffmpeg installed on which every fetch fails. *)
Definition offline_env : Env :=
  {| home := parse_path (py "/home/u");
     which := fun _ => Some (py "/usr/bin/ffmpeg");
     lower := ascii_lower;
     extract_info := fun _ _ _ => Failed (py "network unreachable");
     download := fun _ _ _ fs => (Succeeded tt, fs);
     ffmpeg_run := fun _ _ _ _ fs => (Succeeded tt, fs) |}.

(** A machine with ffmpeg installed on which every fetch succeeds, the
    video being titled [title]; the download writes the file the scripts
    expect and ffmpeg writes its output file. *)
Definition online_env (title : str) : Env :=
  {| home := parse_path (py "/home/u");
     which := fun _ => Some (py "/usr/bin/ffmpeg");
     lower := ascii_lower;
     extract_info := fun _ _ _ => Succeeded {[ py "title" := title ]};
     download := fun _ opts _ fs =>
       (Succeeded tt,
        fs ∪ {[ parse_path (py "/home/u/Downloads/"
                            ++ match merge_output_format opts with
                               | None => py "audio.m4a"
                               | Some _ => py "video.mp4"
                               end) ]});
     ffmpeg_run := fun _ _ output _ fs => (Succeeded tt, fs ∪ {[ parse_path output ]}) |}.

(** A machine on which the download succeeds but leaves its file under
    another name, [video.webm]. *)
Definition stray_env (title : str) : Env :=
  {| home := parse_path (py "/home/u");
     which := fun _ => Some (py "/usr/bin/ffmpeg");
     lower := ascii_lower;
     extract_info := fun _ _ _ => Succeeded {[ py "title" := title ]};
     download := fun _ _ _ fs =>
       (Succeeded tt, fs ∪ {[ parse_path (py "/home/u/Downloads/video.webm") ]});
     ffmpeg_run := fun _ _ _ _ fs => (Failed (py "no such input"), fs) |}.

(** An operating system that refuses a path with a name of more than 255
    bytes (the names below are ASCII, one byte per code point), as Linux
    filesystems do with the error ENAMETOOLONG. *)
Definition name_too_long (p : Path) : option str :=
  if bool_decide (Forall (fun name => length name ≤ 255) (parts p)) then None
  else Some (py "[Errno 36] File name too long: " ++ repr (path_str p)).

Definition linux (fs : gset Path) : OS :=
  {| present := fs; stat_error := name_too_long |}.

(** A title of 300 letters [a]. *)
Definition long_title : str := replicate 300 97%N.

(** The user has typed [lines] and nothing has happened yet. *)
Definition typed (lines : list string) : World :=
  {| files := ∅; stdin := py <$> lines; trace := [] |}.

(** * Theorems *)

(** ** Strings and paths *)

Lemma digits_inj u v : digits u = digits v → u = v.
Proof.
  revert v. induction u; intros [] H; simpl in H; try discriminate;
    try reflexivity; injection H as H; f_equal; auto.
Qed.

Lemma str_of_int_inj i j : str_of_int i = str_of_int j → i = j.
Proof. intros H. by apply Unsigned.to_uint_inj, digits_inj. Qed.

Lemma digits_no_sep u : sep ∉ digits u.
Proof.
  induction u; simpl; rewrite ?not_elem_of_cons; try (split; [done|]);
    try done; apply not_elem_of_nil.
Qed.

Lemma split_nonempty c s : split c s ≠ [].
Proof. destruct s as [|a s]; simpl; [done|]. case_decide; [done|]. by destruct (split c s). Qed.

(** Splitting around a separator-free infix [m]: the pieces before and
    after do not depend on [m], and [m] lands in exactly one piece. *)
Lemma split_infix (t e : str) :
  ∃ A la hb B, ∀ m, sep ∉ m →
    split sep (t ++ m ++ e) = A ++ (la ++ m ++ hb) :: B.
Proof.
  induction t as [|c t IH].
  - destruct (split sep e) as [|hb B] eqn:He; [by apply split_nonempty in He|].
    exists [], [], hb, B. intros m Hm. cbn [app].
    induction m as [|a m IHm]; cbn [app split]; [done|].
    apply not_elem_of_cons in Hm as [Ha Hm].
    destruct (decide (a = sep)); [done|]. by rewrite IHm.
  - destruct IH as (A & la & hb & B & IH).
    destruct (decide (c = sep)) as [->|Hc].
    + exists ([] :: A), la, hb, B. intros m Hm. cbn [app split].
      destruct (decide (sep = sep)); [|done]. by rewrite IH.
    + destruct A as [|a A].
      * exists [], (c :: la), hb, B. intros m Hm. cbn [app split].
        destruct (decide (c = sep)); [done|]. by rewrite IH.
      * exists ((c :: a) :: A), la, hb, B. intros m Hm. cbn [app split].
        destruct (decide (c = sep)); [done|]. by rewrite IH.
Qed.

Lemma candidate_infix out t e k :
  candidate out t e k = (out / (t ++ infix_of k ++ e))%path.
Proof. destruct k; simpl; [done|]. by rewrite <-!app_assoc. Qed.

Lemma infix_no_sep k : sep ∉ infix_of k.
Proof.
  destruct k; simpl.
  - rewrite not_elem_of_cons. split; [done|apply not_elem_of_nil].
  - rewrite not_elem_of_cons. split; [done|].
    rewrite not_elem_of_app. split; [apply digits_no_sep|].
    rewrite not_elem_of_cons. split; [done|apply not_elem_of_nil].
Qed.

Lemma infix_inj : Inj (=) (=) infix_of.
Proof.
  intros [|i] [|j] H; simpl in H; try done.
  injection H as H. apply app_inv_tail in H. by apply str_of_int_inj.
Qed.

Lemma suffixed_is_part la hb k : is_part (la ++ infix_of (S k) ++ hb).
Proof.
  assert (Hlen : 2 ≤ length (la ++ infix_of (S k) ++ hb)).
  { cbn [infix_of]. rewrite !length_app.
    change (length (py "_")) with 1. change (length (py ".")) with 1. lia. }
  split; intros H; rewrite H in Hlen; simpl in Hlen; lia.
Qed.

Lemma parse_parts_candidate_inj t e i j :
  parse_parts (t ++ infix_of i ++ e) = parse_parts (t ++ infix_of j ++ e) → i = j.
Proof.
  unfold parse_parts. destruct (split_infix t e) as (A & la & hb & B & Hs).
  rewrite !Hs by apply infix_no_sep. rewrite !filter_app, !filter_cons.
  intros H. apply app_inv_head in H.
  assert (Hmid : ∀ a b, la ++ infix_of a ++ hb = la ++ infix_of b ++ hb → a = b).
  { intros a b Hab. apply app_inv_head, app_inv_tail in Hab. by apply infix_inj. }
  destruct i as [|i], j as [|j]; [done| | |].
  - rewrite (decide_True (P := is_part (la ++ infix_of (S j) ++ hb))) in H
      by apply suffixed_is_part.
    case_decide.
    + pose proof (f_equal head H) as Hh. cbn [head] in Hh. apply (inj Some) in Hh. by apply Hmid in Hh.
    + apply (f_equal length) in H. simpl in H. lia.
  - rewrite (decide_True (P := is_part (la ++ infix_of (S i) ++ hb))) in H
      by apply suffixed_is_part.
    case_decide.
    + pose proof (f_equal head H) as Hh. cbn [head] in Hh. apply (inj Some) in Hh. by apply Hmid in Hh.
    + apply (f_equal length) in H. simpl in H. lia.
  - rewrite !decide_True in H by apply suffixed_is_part.
    pose proof (f_equal head H) as Hh. cbn [head] in Hh. apply (inj Some) in Hh. by apply Hmid in Hh.
Qed.

Lemma startswith_sep_candidate t e k :
  startswith [sep] (t ++ infix_of k ++ e) = startswith [sep] t.
Proof. destruct t as [|c t]; [by destruct k|done]. Qed.

(** Distinct indices give distinct candidate paths. *)
Global Instance candidate_inj out t e : Inj (=) (=) (candidate out t e).
Proof.
  intros i j. rewrite !candidate_infix. unfold truediv.
  rewrite !startswith_sep_candidate. destruct (startswith [sep] t).
  - intros H. apply (f_equal parts) in H. simpl in H.
    by apply parse_parts_candidate_inj in H.
  - intros H. apply (f_equal parts) in H. simpl in H.
    apply app_inv_head in H. by apply parse_parts_candidate_inj in H.
Qed.

(** ** The allocator *)

Section allocator.
Context (fs : gset Path) (output_path : Path) (title extension : str).

Local Abbreviation cand := (candidate output_path title extension).
Local Abbreviation guf fuel :=
  (generate_unique_filename fuel fs output_path title extension).

Lemma generate_unique_filename_probe fuel :
  guf fuel = probe fuel fs output_path title extension (cand 0) 1.
Proof. done. Qed.

(** One turn of the loop moves from candidate [k] to candidate [k+1]. *)
Lemma probe_step fuel k :
  probe (S fuel) fs output_path title extension (cand k) (S k) =
    if exists_ fs (cand k)
    then probe fuel fs output_path title extension (cand (S k)) (S (S k))
    else Some (cand k).
Proof. cbn [probe]. by rewrite Nat.add_1_r. Qed.

(** The loop walks the candidates in order and stops at the first one
    that does not exist. *)
Lemma probe_finds n : ∀ fuel k,
  (∀ j, j < n → cand (k + j) ∈ fs) → cand (k + n) ∉ fs → n < fuel →
  probe fuel fs output_path title extension (cand k) (S k) = Some (cand (k + n)).
Proof.
  induction n as [|n IH]; intros [|fuel] k Hin Hout Hlt; try lia.
  - rewrite probe_step. unfold exists_. rewrite Nat.add_0_r in Hout.
    by rewrite bool_decide_eq_false_2, Nat.add_0_r.
  - rewrite probe_step. unfold exists_. rewrite bool_decide_eq_true_2.
    + rewrite <-Nat.add_succ_comm. apply IH; [|by rewrite Nat.add_succ_comm|lia].
      intros j Hj. rewrite Nat.add_succ_comm. apply Hin. lia.
    + specialize (Hin 0). rewrite Nat.add_0_r in Hin. apply Hin. lia.
Qed.

(** Whatever the fuel, a returned path is a candidate that does not
    exist, all candidates before it existing. *)
Lemma probe_sound : ∀ fuel k p,
  probe fuel fs output_path title extension (cand k) (S k) = Some p →
  ∃ n, p = cand (k + n) ∧ (cand (k + n) ∉ fs) ∧ ∀ j, j < n → cand (k + j) ∈ fs.
Proof.
  induction fuel as [|fuel IH]; intros k p H; [done|].
  rewrite probe_step in H. unfold exists_ in H. case_bool_decide as Hk.
  - apply IH in H as (n & -> & Hout & Hin). exists (S n).
    rewrite <-!Nat.add_succ_comm. split_and!; [done..|].
    intros [|j] Hj; [by rewrite Nat.add_0_r|].
    rewrite <-Nat.add_succ_comm. apply Hin. lia.
  - injection H as <-. exists 0. rewrite Nat.add_0_r. split_and!; [done..|lia].
Qed.

(** A finite set cannot hold the first [size fs + 1] candidates. *)
Lemma candidates_pigeonhole :
  ¬ ∀ j, j < S (size fs) → cand j ∈ fs.
Proof.
  intros Hall.
  assert (Hsub : list_to_set (cand <$> seq 0 (S (size fs))) ⊆ fs).
  { intros p. rewrite elem_of_list_to_set, list_elem_of_fmap.
    intros (j & -> & Hj). apply Hall. apply elem_of_seq in Hj. lia. }
  apply subseteq_size in Hsub.
  rewrite size_list_to_set in Hsub by (apply NoDup_fmap_2, NoDup_seq; apply _).
  rewrite length_fmap, length_seq in Hsub. lia.
Qed.

Lemma first_free_below m :
  (∀ j, j < m → cand j ∈ fs) ∨
  ∃ n, n < m ∧ (cand n ∉ fs) ∧ ∀ j, j < n → cand j ∈ fs.
Proof.
  induction m as [|m [IH|(n & Hn & Hout & Hin)]].
  - left. lia.
  - destruct (decide (cand m ∈ fs)) as [Hm|Hm].
    + left. intros j Hj. destruct (decide (j = m)) as [->|]; [done|]. apply IH. lia.
    + right. exists m. split_and!; [lia|done|done].
  - right. exists n. split_and!; [lia|done|done].
Qed.

(** Some index no larger than the number of existing paths is free, and
    the least such index has only existing candidates below it. *)
Lemma first_free :
  ∃ n, n ≤ size fs ∧ (cand n ∉ fs) ∧ ∀ j, j < n → cand j ∈ fs.
Proof.
  destruct (first_free_below (S (size fs))) as [Hall|(n & Hn & Hout & Hin)].
  - by apply candidates_pigeonhole in Hall.
  - exists n. split_and!; [lia|done|done].
Qed.

Lemma first_free_unique n n' :
  cand n ∉ fs → (∀ j, j < n → cand j ∈ fs) →
  cand n' ∉ fs → (∀ j, j < n' → cand j ∈ fs) → n = n'.
Proof.
  intros Hn Hbelow Hn' Hbelow'.
  destruct (Nat.lt_trichotomy n n') as [Hlt|[->|Hlt]]; [|done|].
  - by apply Hbelow' in Hlt.
  - by apply Hbelow in Hlt.
Qed.
End allocator.

(** The behaviour of [generate_unique_filename] in one statement: the
    least free index [k] is at most [size fs]; any fuel above [k] returns
    candidate [k]; no fuel returns anything else. *)
Lemma generate_unique_filename_spec fs out t e :
  ∃ k, k ≤ size fs ∧
    (candidate out t e k ∉ fs) ∧
    (∀ j, j < k → candidate out t e j ∈ fs) ∧
    (∀ fuel, k < fuel →
       generate_unique_filename fuel fs out t e = Some (candidate out t e k)) ∧
    (∀ fuel q,
       generate_unique_filename fuel fs out t e = Some q → q = candidate out t e k).
Proof.
  destruct (first_free fs out t e) as (k & Hk & Hout & Hin).
  exists k. split_and!; [done..| |].
  - intros fuel Hfuel. rewrite generate_unique_filename_probe.
    by apply (probe_finds fs out t e k fuel 0).
  - intros fuel q Hq. rewrite generate_unique_filename_probe in Hq.
    apply probe_sound in Hq as (n & -> & Hn & Hbelow). simpl in *.
    f_equal. by apply (first_free_unique fs out t e).
Qed.

(** C1: for every set of existing paths, every output directory, title and
    extension, the allocator has exactly one possible return value; it is
    returned as soon as the fuel exceeds the number of existing paths, and
    it does not exist in the directory state the loop has just tested. *)
Theorem generate_unique_filename_fresh fs out t e :
  ∃ p,
    (∀ fuel, size fs < fuel → generate_unique_filename fuel fs out t e = Some p) ∧
    (∀ fuel q, generate_unique_filename fuel fs out t e = Some q → q = p) ∧
    exists_ fs p = false.
Proof.
  destruct (generate_unique_filename_spec fs out t e)
    as (k & Hk & Hout & _ & Hret & Honly).
  exists (candidate out t e k). split_and!.
  - intros fuel Hfuel. apply Hret. lia.
  - done.
  - unfold exists_. by rewrite bool_decide_eq_false_2.
Qed.

(** When [exists] answers for every candidate, the probe loop returns:
    [size fs + 1] evaluations of the loop condition always suffice, and
    more fuel does not change the result. *)
Lemma generate_unique_filename_terminates fs out t e :
  ∃ p, ∀ fuel, size fs < fuel →
    generate_unique_filename fuel fs out t e = Some p.
Proof.
  destruct (generate_unique_filename_spec fs out t e)
    as (k & Hk & _ & _ & Hret & _).
  exists (candidate out t e k). intros fuel Hfuel. apply Hret. lia.
Qed.

(** C9: the allocator returns the earliest free candidate of the sequence
    [title.ext], [title_1.ext], [title_2.ext], ...: the index [k] it
    returns is the only index it can return, candidate [k] does not exist
    and every candidate before it does. *)
Theorem generate_unique_filename_earliest fs out t e :
  ∃ k,
    (∀ fuel, size fs < fuel →
       generate_unique_filename fuel fs out t e = Some (candidate out t e k)) ∧
    (∀ fuel i,
       generate_unique_filename fuel fs out t e = Some (candidate out t e i) → i = k) ∧
    (∀ j, j < k → exists_ fs (candidate out t e j) = true) ∧
    exists_ fs (candidate out t e k) = false.
Proof.
  destruct (generate_unique_filename_spec fs out t e)
    as (k & Hk & Hout & Hin & Hret & Honly).
  exists k. split_and!.
  - intros fuel Hfuel. apply Hret. lia.
  - intros fuel i Hi. apply Honly in Hi. by apply (inj _) in Hi.
  - intros j Hj. unfold exists_. rewrite bool_decide_eq_true_2; auto.
  - unfold exists_. by rewrite bool_decide_eq_false_2.
Qed.

(** C2: the probe sequence on the title ["t"] and the extension ["mp3"],
    in any directory [dir] and any state [fs] of the filesystem: if
    [dir/t.mp3] does not exist it is returned; if it exists and
    [dir/t_1.mp3] does not, [dir/t_1.mp3] is returned; if both exist and
    [dir/t_2.mp3] does not, [dir/t_2.mp3] is returned. *)
Theorem generate_unique_filename_probe_sequence fs (dir : Path) fuel :
  ((dir / py "t.mp3")%path ∉ fs →
     generate_unique_filename (1 + fuel) fs dir (py "t") (py "mp3")
       = Some (dir / py "t.mp3")%path) ∧
  ((dir / py "t.mp3")%path ∈ fs → (dir / py "t_1.mp3")%path ∉ fs →
     generate_unique_filename (2 + fuel) fs dir (py "t") (py "mp3")
       = Some (dir / py "t_1.mp3")%path) ∧
  ((dir / py "t.mp3")%path ∈ fs → (dir / py "t_1.mp3")%path ∈ fs →
   (dir / py "t_2.mp3")%path ∉ fs →
     generate_unique_filename (3 + fuel) fs dir (py "t") (py "mp3")
       = Some (dir / py "t_2.mp3")%path).
Proof.
  change (dir / py "t.mp3")%path with (candidate dir (py "t") (py "mp3") 0).
  change (dir / py "t_1.mp3")%path with (candidate dir (py "t") (py "mp3") 1).
  change (dir / py "t_2.mp3")%path with (candidate dir (py "t") (py "mp3") 2).
  rewrite !generate_unique_filename_probe. split_and!.
  - intros H0. apply (probe_finds fs dir _ _ 0 _ 0); [lia|done|lia].
  - intros H0 H1. apply (probe_finds fs dir _ _ 1 _ 0); [|done|lia].
    intros j Hj. by replace j with 0 by lia.
  - intros H0 H1 H2. apply (probe_finds fs dir _ _ 2 _ 0); [|done|lia].
    intros [|[|j]] Hj; [done|done|lia].
Qed.

(** The three directory states of C2 spelled out: nothing below
    [/home/u/Downloads], then [t.mp3], then [t.mp3] and [t_1.mp3]. *)
Lemma generate_unique_filename_probe_sequence_witness :
  let dir := parse_path (py "/home/u/Downloads") in
  generate_unique_filename 1 {[ dir ]} dir (py "t") (py "mp3")
    = Some (parse_path (py "/home/u/Downloads/t.mp3")) ∧
  generate_unique_filename 2 {[ dir; (dir / py "t.mp3")%path ]} dir (py "t") (py "mp3")
    = Some (parse_path (py "/home/u/Downloads/t_1.mp3")) ∧
  generate_unique_filename 3
      {[ dir; (dir / py "t.mp3")%path; (dir / py "t_1.mp3")%path ]}
      dir (py "t") (py "mp3")
    = Some (parse_path (py "/home/u/Downloads/t_2.mp3")).
Proof.
  intros dir. split_and!.
  - apply (proj1 (generate_unique_filename_probe_sequence {[ dir ]} dir 0)).
    vm_compute. set_solver.
  - apply (proj1 (proj2 (generate_unique_filename_probe_sequence
                           {[ dir; (dir / py "t.mp3")%path ]} dir 0))).
    + set_solver.
    + vm_compute. set_solver.
  - apply (proj2 (proj2 (generate_unique_filename_probe_sequence
             {[ dir; (dir / py "t.mp3")%path; (dir / py "t_1.mp3")%path ]} dir 0))).
    + set_solver.
    + set_solver.
    + vm_compute. set_solver.
Defined.

(** ** The allocator when [Path.exists] may raise *)

Section allocator_os.
Context (os : OS) (output_path : Path) (title extension : str).

Local Abbreviation cand := (candidate output_path title extension).

Lemma generate_unique_filename_os_probe fuel :
  generate_unique_filename_os fuel os output_path title extension
  = probe_os fuel os output_path title extension (cand 0) 1.
Proof. done. Qed.

Lemma probe_os_step fuel k :
  probe_os (S fuel) os output_path title extension (cand k) (S k) =
    match path_exists os (cand k) with
    | Failed msg => OSError msg
    | Succeeded true =>
        probe_os fuel os output_path title extension (cand (S k)) (S (S k))
    | Succeeded false => Allocated (cand k)
    end.
Proof. cbn [probe_os]. by rewrite Nat.add_1_r. Qed.

(** The loop walks the candidates in order and stops at the first one for
    which [exists] does not answer [True]. *)
Lemma probe_os_stops n : ∀ fuel k,
  (∀ j, j < n → path_exists os (cand (k + j)) = Succeeded true) →
  path_exists os (cand (k + n)) ≠ Succeeded true → n < fuel →
  probe_os fuel os output_path title extension (cand k) (S k) =
    match path_exists os (cand (k + n)) with
    | Failed msg => OSError msg
    | Succeeded _ => Allocated (cand (k + n))
    end.
Proof.
  induction n as [|n IH]; intros [|fuel] k Hin Hout Hlt; try lia.
  - rewrite probe_os_step. rewrite Nat.add_0_r in *.
    by destruct (path_exists os (cand k)) as [msg|[|]].
  - rewrite probe_os_step.
    pose proof (Hin 0 ltac:(lia)) as H0. rewrite Nat.add_0_r in H0. rewrite H0.
    rewrite <-Nat.add_succ_comm in *. apply IH; [|done|lia].
    intros j Hj. rewrite Nat.add_succ_comm. apply Hin. lia.
Qed.

Lemma first_stop_below m :
  (∀ j, j < m → path_exists os (cand j) = Succeeded true) ∨
  ∃ n, n < m ∧ path_exists os (cand n) ≠ Succeeded true ∧
       ∀ j, j < n → path_exists os (cand j) = Succeeded true.
Proof.
  induction m as [|m [IH|(n & Hn & Hout & Hin)]].
  - left. lia.
  - destruct (path_exists os (cand m)) as [msg|[|]] eqn:Hm.
    + right. exists m. rewrite Hm. split_and!; [lia|done|done].
    + left. intros j Hj. destruct (decide (j = m)) as [->|]; [done|]. apply IH. lia.
    + right. exists m. rewrite Hm. split_and!; [lia|done|done].
  - right. exists n. split_and!; [lia|done|done].
Qed.

(** A path for which [exists] answers [True] is in the set of existing
    paths. *)
Lemma path_exists_true p : path_exists os p = Succeeded true → p ∈ present os.
Proof.
  unfold path_exists, exists_. destruct (stat_error os p); [done|].
  intros [= H]. by apply bool_decide_eq_true in H.
Qed.

Lemma first_stop :
  ∃ n, n ≤ size (present os) ∧ path_exists os (cand n) ≠ Succeeded true ∧
       ∀ j, j < n → path_exists os (cand j) = Succeeded true.
Proof.
  destruct (first_stop_below (S (size (present os)))) as [Hall|(n & Hn & Hout & Hin)].
  - destruct (candidates_pigeonhole (present os) output_path title extension).
    intros j Hj. by apply path_exists_true, Hall.
  - exists n. split_and!; [lia|done|done].
Qed.
End allocator_os.

(** On an operating system that answers every [stat], the allocator is
    [generate_unique_filename] on the set of existing paths. *)
Lemma generate_unique_filename_os_answers os out t e fuel :
  (∀ p, stat_error os p = None) →
  generate_unique_filename_os fuel os out t e =
    match generate_unique_filename fuel (present os) out t e with
    | Some p => Allocated p
    | None => OutOfFuel
    end.
Proof.
  intros Hstat. unfold generate_unique_filename_os, generate_unique_filename.
  generalize (out / (t ++ py "." ++ e))%path 1.
  induction fuel as [|fuel IH]; intros base i; [done|].
  cbn [probe_os probe]. unfold path_exists. rewrite Hstat.
  destruct (exists_ (present os) base); [apply IH|done].
Qed.

(** C6, as the code has it: for every finite set of existing paths and
    whatever [stat] calls the operating system refuses, the probe loop
    ends within [size + 1] evaluations of [base_file.exists()].  It ends
    at the first candidate [k] of the sequence [title.ext], [title_1.ext],
    ... for which [exists] does not answer [True]: the allocator returns
    that candidate when [exists] answers [False], and lets the [OSError]
    out when [exists] raises.  More fuel does not change the result, and
    the loop never runs on. *)
Theorem generate_unique_filename_os_terminates os out t e :
  ∃ k, k ≤ size (present os) ∧
    (∀ j, j < k → path_exists os (candidate out t e j) = Succeeded true) ∧
    path_exists os (candidate out t e k) ≠ Succeeded true ∧
    ∀ fuel, k < fuel →
      generate_unique_filename_os fuel os out t e =
        match path_exists os (candidate out t e k) with
        | Failed msg => OSError msg
        | Succeeded _ => Allocated (candidate out t e k)
        end.
Proof.
  destruct (first_stop os out t e) as (k & Hk & Hout & Hin).
  exists k. split_and!; [done..|].
  intros fuel Hfuel. rewrite generate_unique_filename_os_probe.
  by apply (probe_os_stops os out t e k fuel 0).
Qed.

(** C6, as the specification has it, fails: in the existing directory
    [/home/u/Downloads] of a Linux system, the allocator asked for a title
    of 300 letters does not return, whatever the fuel: the first
    [base_file.exists()] raises [OSError] (file name too long) and the
    allocator lets it out. *)
Lemma generate_unique_filename_os_name_too_long :
  let dir := parse_path (py "/home/u/Downloads") in
  path_exists (linux {[ dir ]}) dir = Succeeded true ∧
  ∀ fuel,
    generate_unique_filename_os (S fuel) (linux {[ dir ]}) dir long_title (py "mp3")
    = OSError (py "[Errno 36] File name too long: '/home/u/Downloads/"
               ++ long_title ++ py ".mp3'").
Proof.
  intros dir. split; [by vm_compute|]. intros fuel.
  unfold generate_unique_filename_os. cbn [probe_os].
  replace (path_exists (linux {[ dir ]}) (dir / (long_title ++ py "." ++ py "mp3"))%path)
    with (Failed (A := bool)
            (py "[Errno 36] File name too long: '/home/u/Downloads/"
             ++ long_title ++ py ".mp3'")); [done|].
  by vm_compute.
Qed.

(** ** The sanitizer of [ytmediadownload.py] *)

Lemma replace_fmap old u s :
  replace old [u] s = (fun c => if decide (c = old) then u else c) <$> s.
Proof.
  unfold replace. induction s as [|c s IH]; [done|].
  rewrite bind_cons, fmap_cons, IH. by case_decide.
Qed.

(** A sequence of one-character replacements by [u] acts on each character
    on its own: a character of [olds] becomes [u], any other stays, as
    long as [u] itself is not replaced. *)
Lemma foldl_replace_fmap (olds : list char) u : ∀ s,
  u ∉ olds →
  foldl (fun s old => replace old [u] s) s olds =
    (fun c => if bool_decide (c ∈ olds) then u else c) <$> s.
Proof.
  induction olds as [|old olds IH]; intros s Hu.
  - cbn [foldl]. rewrite <-(list_fmap_id s) at 1. apply list_fmap_ext.
    intros _ c _. by rewrite bool_decide_eq_false_2 by apply not_elem_of_nil.
  - apply not_elem_of_cons in Hu as [Hne Hu].
    cbn [foldl]. rewrite IH, replace_fmap, <-list_fmap_compose by done.
    apply list_fmap_ext. intros _ c _. cbn.
    destruct (decide (c = old)) as [->|Hc].
    + rewrite (bool_decide_eq_false_2 (u ∈ olds)) by done.
      by rewrite bool_decide_eq_true_2 by apply list_elem_of_here.
    + destruct (decide (c ∈ olds)) as [Hin|Hin].
      * rewrite !bool_decide_eq_true_2; [done| |done]. by apply list_elem_of_further.
      * rewrite !bool_decide_eq_false_2; [done| |done].
        rewrite not_elem_of_cons. done.
Qed.

Lemma underscore_valid : 95%N ∉ YtMediaDownload.invalid_chars.
Proof.
  apply (bool_decide_eq_false (95%N ∈ YtMediaDownload.invalid_chars)).
  by vm_compute.
Qed.

Lemma sanitize_filename_fmap title :
  YtMediaDownload.sanitize_filename title = YtMediaDownload.sanitize_char <$> title.
Proof.
  unfold YtMediaDownload.sanitize_filename.
  change (py "_") with [95%N].
  by rewrite foldl_replace_fmap by apply underscore_valid.
Qed.

Lemma sanitize_char_valid c :
  YtMediaDownload.sanitize_char c ∉ YtMediaDownload.invalid_chars.
Proof.
  unfold YtMediaDownload.sanitize_char. case_bool_decide; [|done].
  apply underscore_valid.
Qed.

Lemma sanitize_char_id c :
  c ∉ YtMediaDownload.invalid_chars → YtMediaDownload.sanitize_char c = c.
Proof. intros H. unfold YtMediaDownload.sanitize_char. by rewrite bool_decide_eq_false_2. Qed.

(** X1: [sanitize_filename] replaces, position by position, each of the nine
    characters by an underscore and keeps every other character: the
    result holds none of the nine, and a title that holds none of them is
    returned as it is. *)
Lemma sanitize_filename_spec title :
  YtMediaDownload.sanitize_filename title
    = (fun c => if bool_decide (c ∈ [60; 62; 58; 34; 47; 92; 124; 63; 42]%N)
                then 95%N else c) <$> title ∧
  (∀ c, c ∈ [60; 62; 58; 34; 47; 92; 124; 63; 42]%N →
        c ∉ YtMediaDownload.sanitize_filename title) ∧
  ((∀ c, c ∈ [60; 62; 58; 34; 47; 92; 124; 63; 42]%N → c ∉ title) →
   YtMediaDownload.sanitize_filename title = title).
Proof.
  change [60; 62; 58; 34; 47; 92; 124; 63; 42]%N with YtMediaDownload.invalid_chars.
  rewrite sanitize_filename_fmap. split_and!.
  - done.
  - intros c Hc Hin. apply list_elem_of_fmap in Hin as (c' & -> & _).
    by apply sanitize_char_valid in Hc.
  - intros Hnone. rewrite <-(list_fmap_id title) at 2.
    apply list_fmap_ext. intros i c Hc. apply sanitize_char_id.
    intros Hin. apply (Hnone c Hin). by apply list_elem_of_lookup_2 in Hc.
Qed.

(** C10: [sanitize_filename] is idempotent and preserves the length of the
    title. *)
Theorem sanitize_filename_idempotent_length title :
  YtMediaDownload.sanitize_filename (YtMediaDownload.sanitize_filename title)
    = YtMediaDownload.sanitize_filename title ∧
  length (YtMediaDownload.sanitize_filename title) = length title.
Proof.
  rewrite !sanitize_filename_fmap. split.
  - rewrite <-list_fmap_compose. apply list_fmap_ext. intros _ c _. cbn.
    apply sanitize_char_id, sanitize_char_valid.
  - apply length_fmap.
Qed.

(** ** The quality tables of [ytmediaqualityselect.py] and
    [ytmediadownload.py.py] *)

(** C4: the bitrate of [convert_to_mp3] is ["128k"] for ["low"], ["192k"]
    for ["medium"], ["320k"] for ["high"], and the default ["192k"] for
    every other label and for [None]; no label makes the lookup fail. *)
Theorem bitrate_of_table (quality : option str) :
  YtMediaQualitySelect.bitrate_of quality =
    if decide (quality = Some (py "low")) then py "128k"
    else if decide (quality = Some (py "medium")) then py "192k"
    else if decide (quality = Some (py "high")) then py "320k"
    else py "192k".
Proof.
  destruct quality as [q|]; [|done].
  unfold YtMediaQualitySelect.bitrate_of, YtMediaQualitySelect.bitrates, dict_get.
  repeat case_decide; simplify_eq; try done.
  rewrite !lookup_insert_ne, lookup_singleton_ne by congruence. done.
Qed.

(** C5: the format selector of [download_video] is the selector capped at
    720, 1080 or 1440 lines for ["720p"], ["1080p"] or ["1440p"], and the
    uncapped selector for every other label and for [None]. *)
Theorem video_format_table (video_quality : option str) :
  YtMediaQualitySelect.video_format video_quality =
    if decide (video_quality = Some (py "720p"))
    then py "bestvideo[height<=720]+bestaudio/best"
    else if decide (video_quality = Some (py "1080p"))
    then py "bestvideo[height<=1080]+bestaudio/best"
    else if decide (video_quality = Some (py "1440p"))
    then py "bestvideo[height<=1440]+bestaudio/best"
    else py "bestvideo+bestaudio/best".
Proof.
  destruct video_quality as [q|]; [|done].
  unfold YtMediaQualitySelect.video_format, YtMediaQualitySelect.quality_formats,
    dict_get.
  repeat case_decide; simplify_eq; try done.
  rewrite !lookup_insert_ne, lookup_singleton_ne by congruence. done.
Qed.

(** The tables as [convert_to_mp3] and [download_video] of either script
    use them, on the labels of the specification. *)
Example resolver_examples :
  YtMediaQualitySelect.bitrate_of (Some (py "low")) = py "128k" ∧
  YtMediaQualitySelect.bitrate_of (Some (py "unknown")) = py "192k" ∧
  YtMediaDownloadPy.bitrate_of (Some (py "high")) = py "320k" ∧
  YtMediaQualitySelect.video_format (Some (py "1080p"))
    = py "bestvideo[height<=1080]+bestaudio/best" ∧
  YtMediaDownloadPy.video_format (Some (py "bogus")) = py "bestvideo+bestaudio/best".
Proof. by vm_compute. Qed.

(** ** Fetch failures in [ytmediadownload.py] *)

Section fetch_failure.
Context (env : Env) (download_path : Path).

Import YtMediaDownload.

Lemma fetch_fails_trace url format_choice w msg w1 :
  fetch_fails env download_path url format_choice w msg w1 →
  let opts := ydl_opts download_path format_choice in
  stdin w1 = stdin w ∧
  (trace w1 = trace w ++ [ExtractedInfo opts url] ∨
   trace w1 = trace w ++ [ExtractedInfo opts url; Downloaded opts [url]]).
Proof.
  intros [H|(info & w' & H1 & H2)] opts; fold opts in H || fold opts in H1, H2.
  - unfold ydl_extract_info in H.
    destruct (extract_info env _ opts url); simplify_eq. auto.
  - unfold ydl_extract_info in H1. unfold ydl_download in H2.
    destruct (extract_info env _ opts url); simplify_eq.
    destruct (download env _ opts [url] _) as [[] fs']; simplify_eq.
    cbn. rewrite <-app_assoc. auto.
Qed.

(** [download_media] turns the failure into a logged error and the pair
    [(None, None)]. *)
Lemma download_media_fetch_fails url format_choice w msg w1 :
  fetch_fails env download_path url format_choice w msg w1 →
  download_media env url download_path format_choice w =
    (Returned (None, None),
     emit (Logged ERROR (py "Download error: " ++ msg)) w1).
Proof.
  intros [H|(info & w' & H1 & H2)];
    unfold download_media, try_except, bind.
  - by rewrite H.
  - by rewrite H1, H2.
Qed.
End fetch_failure.

(** C7: in [ytmediadownload.py], when the download collaborator raises
    [DownloadError] during the turn of the loop that has read [url] and
    [format_choice], [download_media] returns [(None, None)]; from the
    failing call to the question whether to continue the program only logs
    the error (no path is allocated, ffmpeg is not run, nothing is
    unlinked); no exception leaves the loop body; and when the user
    answers ['yes'] the loop goes on with its next turn. *)
Theorem download_error_skips_iteration
    (env : Env) (download_path : Path) (url format_choice msg : str)
    (w0 w w1 : World) :
  YtMediaDownload.prompt_user_input env w0 = (Returned (url, format_choice), w) →
  YtMediaDownload.fetch_fails env download_path url format_choice w msg w1 →
  let opts := YtMediaDownload.ydl_opts download_path format_choice in
  let w2 := emit (Logged ERROR (py "Download error: " ++ msg)) w1 in
  YtMediaDownload.download_media env url download_path format_choice w
    = (Returned (None, None), w2) ∧
  (trace w2 = trace w ++ [ExtractedInfo opts url;
                          Logged ERROR (py "Download error: " ++ msg)] ∨
   trace w2 = trace w ++ [ExtractedInfo opts url; Downloaded opts [url];
                          Logged ERROR (py "Download error: " ++ msg)]) ∧
  YtMediaDownload.main_loop_body env download_path w0
    = YtMediaDownload.ask_to_continue env w2 ∧
  (∀ fuel w3,
     YtMediaDownload.prompt_continue env w2 = (Returned (py "yes"), w3) →
     while_true (S fuel) (YtMediaDownload.main_loop_body env download_path) w0
       = while_true fuel (YtMediaDownload.main_loop_body env download_path) w3).
Proof.
  intros Hprompt Hfail opts w2.
  pose proof (download_media_fetch_fails env download_path _ _ _ _ _ Hfail) as Hdl.
  pose proof (fetch_fails_trace env download_path _ _ _ _ _ Hfail) as [_ Htr].
  assert (Hbody : YtMediaDownload.main_loop_body env download_path w0
                  = YtMediaDownload.ask_to_continue env w2).
  { unfold YtMediaDownload.main_loop_body, YtMediaDownload.ask_to_continue.
    unfold bind at 1. rewrite Hprompt. unfold bind at 1. rewrite Hdl.
    unfold bind at 1. done. }
  split_and!.
  - done.
  - cbn. fold opts in Htr. destruct Htr as [-> | ->]; rewrite <-app_assoc; auto.
  - done.
  - intros fuel w3 Hyes. cbn [while_true]. rewrite Hbody.
    unfold YtMediaDownload.ask_to_continue, bind. rewrite Hyes.
    by rewrite decide_False by (intros H; by apply H).
Qed.

(** A turn of C7 on a machine without network: the user types a URL,
    [mp3] and [yes]. *)
Lemma download_error_skips_iteration_witness :
  let env := offline_env in
  let download_path := (home env / py "Downloads")%path in
  let url := py "https://www.youtube.com/watch?v=1" in
  let msg := py "network unreachable" in
  let w0 := typed ["https://www.youtube.com/watch?v=1"; "mp3"; "yes"]%string in
  let w := snd (YtMediaDownload.prompt_user_input env w0) in
  let w1 := emit (ExtractedInfo (YtMediaDownload.ydl_opts download_path (py "mp3")) url) w in
  let w2 := emit (Logged ERROR (py "Download error: " ++ msg)) w1 in
  YtMediaDownload.download_media env url download_path (py "mp3") w
    = (Returned (None, None), w2) ∧
  YtMediaDownload.main_loop_body env download_path w0
    = YtMediaDownload.ask_to_continue env w2 ∧
  fst (YtMediaDownload.ask_to_continue env w2) = Returned None.
Proof.
  intros env download_path url msg w0 w w1 w2.
  destruct (download_error_skips_iteration env download_path url (py "mp3") msg
              w0 w w1) as (H1 & _ & H2 & _).
  - by vm_compute.
  - left. by vm_compute.
  - split_and!; [exact H1|exact H2|by vm_compute].
Defined.

(** ** The sanitization of the two other scripts *)

(** C3 at [download_video] of [ytmediaqualityselect.py] and of
    [ytmediadownload.py.py]: only ['/'] and ['\'] are replaced there, so a
    title with a question mark and a colon comes back as it is, while
    [sanitize_filename] of [ytmediadownload.py] replaces both. *)
Theorem download_video_keeps_invalid_chars :
  let title := py "What? A: B" in
  let dir := parse_path (py "/home/u/Downloads") in
  fst (YtMediaQualitySelect.download_video (online_env title)
         (py "https://www.youtube.com/watch?v=1") dir
         (Some (py "mp4")) (Some (py "medium")) (Some (py "720p")) (typed []))
    = Returned (Some (dir / py "video.mp4")%path, Some title) ∧
  fst (YtMediaDownloadPy.download_video (online_env title)
         (py "https://www.youtube.com/watch?v=1") dir
         (Some (py "mp4")) (Some (py "medium")) (Some (py "720p")) (typed []))
    = Returned (Some (dir / py "video.mp4")%path, Some title) ∧
  YtMediaDownload.sanitize_filename title = py "What_ A_ B".
Proof. by vm_compute. Qed.

(** ** The question whether to continue *)

(** A [while True] loop that returns did so from a turn of its body. *)
Lemma while_true_returned {A} (body : M (option A)) fuel w a w' :
  while_true fuel body w = (Returned a, w') →
  ∃ w1, body w1 = (Returned (Some a), w').
Proof.
  revert w. induction fuel as [|fuel IH]; intros w H; [done|].
  cbn [while_true] in H.
  destruct (body w) as [[[x|]| | |] w1] eqn:Hb; simplify_eq; eauto.
Qed.

(** [prompt_continue] of [ytmediadownload.py] returns nothing but ['yes']
    and ['no']. *)
Lemma prompt_continue_yes_no env w c w' :
  YtMediaDownload.prompt_continue env w = (Returned c, w') →
  c = py "yes" ∨ c = py "no".
Proof.
  intros H. apply while_true_returned in H as [w1 H].
  unfold bind, input in H. destruct (stdin w1) as [|line rest]; [done|].
  case_bool_decide as Hc; [|done]. unfold ret in H.
  injection H as <- _.
  apply elem_of_cons in Hc as [Hc|Hc]; [by left|].
  apply elem_of_cons in Hc as [Hc|Hc]; [by right|].
  by apply elem_of_nil in Hc.
Qed.

(** X4: an answer that is neither makes [prompt_continue] log an error and
    ask again. *)
Lemma prompt_continue_asks_again env w line rest :
  stdin w = line :: rest →
  lower env (strip line) ∉ [py "yes"; py "no"] →
  YtMediaDownload.prompt_continue env w =
    YtMediaDownload.prompt_continue env
      (emit (Logged ERROR (py "Invalid input. Please enter 'yes' or 'no'."))
         (set_stdin rest
            (emit (Prompted (py "Do you want to download another video? (yes/no): ")) w))).
Proof.
  intros Hin Hc. unfold YtMediaDownload.prompt_continue, while_input.
  rewrite Hin. cbn [length while_true].
  unfold bind at 1, input at 1. rewrite Hin.
  by rewrite bool_decide_eq_false_2.
Qed.

(** X3: [main] of [ytmediadownload.py] returns only when ffmpeg is missing
    or when [prompt_continue] has returned ['no']. *)
Lemma main_returns_on_no env w w' :
  YtMediaDownload.main env w = (Returned tt, w') →
  truthy (which env (py "ffmpeg")) = false ∨
  ∃ w1, YtMediaDownload.prompt_continue env w1 = (Returned (py "no"), w').
Proof.
  unfold YtMediaDownload.main, bind, mkdir_parents.
  destruct (truthy (which env (py "ffmpeg"))); [|by left].
  cbn [negb]. intros H. right.
  apply while_true_returned in H as [w1 H].
  unfold YtMediaDownload.main_loop_body in H.
  unfold bind at 1 in H.
  destruct (YtMediaDownload.prompt_user_input env w1)
    as [[[url fc]| | |] w2]; try done.
  unfold bind at 1 in H.
  destruct (YtMediaDownload.download_media env url _ fc w2)
    as [[[fp t]| | |] w3]; try done.
  unfold bind at 1 in H.
  match type of H with
  | match ?m w3 with _ => _ end = _ => destruct (m w3) as [[[]| | |] w4]; try done
  end.
  unfold bind in H.
  destruct (YtMediaDownload.prompt_continue env w4) as [[c| | |] w5] eqn:Hc; try done.
  case_decide as Hne; [|done]. unfold ret in H. simplify_eq.
  apply prompt_continue_yes_no in Hc as Hyn. destruct Hyn as [->| ->]; [done|eauto].
Qed.

(** The user answers [maybe] and then [no]. *)
Lemma prompt_continue_asks_again_witness :
  YtMediaDownload.prompt_continue offline_env (typed ["maybe"; "no"]%string) =
    YtMediaDownload.prompt_continue offline_env
      (emit (Logged ERROR (py "Invalid input. Please enter 'yes' or 'no'."))
         (set_stdin [py "no"]
            (emit (Prompted (py "Do you want to download another video? (yes/no): "))
               (typed ["maybe"; "no"]%string)))).
Proof.
  apply (prompt_continue_asks_again offline_env
           (typed ["maybe"; "no"]%string) (py "maybe") [py "no"]).
  - reflexivity.
  - apply (bool_decide_eq_false
             (lower offline_env (strip (py "maybe")) ∈ [py "yes"; py "no"])).
    by vm_compute.
Defined.

(** The user types a URL, [mp3] and [no] on a machine without network. *)
Lemma main_returns_on_no_witness :
  let w := typed ["https://www.youtube.com/watch?v=1"; "mp3"; "no"]%string in
  truthy (which offline_env (py "ffmpeg")) = false ∨
  ∃ w1, YtMediaDownload.prompt_continue offline_env w1
        = (Returned (py "no"), snd (YtMediaDownload.main offline_env w)).
Proof.
  intros w. apply (main_returns_on_no offline_env w). by vm_compute.
Defined.

(** C8 at [main] of [ytmediaqualityselect.py]: with ffmpeg installed, the
    user types a URL, [mp3], [high] and then [maybe] to the last question,
    and [main] returns; the same answer leaves [main] of
    [ytmediadownload.py] and of [ytmediadownload.py.py] waiting at the
    question it has asked again. *)
Theorem qualityselect_unrecognized_answer_ends_loop :
  fst (YtMediaQualitySelect.main offline_env
         (typed ["https://www.youtube.com/watch?v=1"; "mp3"; "high"; "maybe"]%string))
    = Returned tt ∧
  fst (YtMediaDownload.main offline_env
         (typed ["https://www.youtube.com/watch?v=1"; "mp3"; "maybe"]%string))
    = Waiting ∧
  fst (YtMediaDownloadPy.main offline_env
         (typed ["https://www.youtube.com/watch?v=1"; "mp3"; "high"; "maybe"]%string))
    = Waiting.
Proof. by vm_compute. Qed.

(** ** The loops never run out of fuel *)

Lemma tame_ret {A} (a : A) : tame (ret a).
Proof. intros w. cbn. split; [done|lia]. Qed.

Lemma tame_bind {A B} (m : M A) (k : A → M B) :
  tame m → (∀ a, tame (k a)) → tame (bind m k).
Proof.
  intros Hm Hk w. unfold bind. destruct (Hm w) as [Hnd Hle].
  destruct (m w) as [[a| | |] w1]; cbn in *; try (split; [done|lia]).
  destruct (Hk a w1). split; [done|lia].
Qed.

Lemma tame_try_except {A} (m : M A) handler :
  tame m → (∀ e h, handler e = Some h → tame h) → tame (try_except m handler).
Proof.
  intros Hm Hh w. unfold try_except. destruct (Hm w) as [Hnd Hle].
  destruct (m w) as [[a|e| |] w1]; cbn in *; try (split; [done|lia]).
  destruct (handler e) as [h|] eqn:He; cbn; [|split; [done|lia]].
  destruct (Hh e h He w1). split; [done|lia].
Qed.

Lemma tame_input prompt : tame (input prompt).
Proof.
  intros w. unfold input.
  destruct (stdin w) eqn:E; cbn; rewrite ?E; cbn; split; try done; lia.
Qed.

Lemma tame_logging level msg : tame (logging level msg).
Proof. intros w. cbn. split; [done|lia]. Qed.

Lemma tame_mkdir_parents p : tame (mkdir_parents p).
Proof. intros w. cbn. split; [done|lia]. Qed.

Lemma tame_unlink p : tame (unlink p).
Proof. intros w. unfold unlink. destruct (exists_ _ _); cbn; split; try done; lia. Qed.

Lemma tame_rename p q : tame (rename p q).
Proof. intros w. unfold rename. destruct (exists_ _ _); cbn; split; try done; lia. Qed.

Lemma tame_utime p : tame (utime p).
Proof. intros w. unfold utime. destruct (exists_ _ _); cbn; split; try done; lia. Qed.

Lemma tame_unique_filename out t e : tame (unique_filename out t e).
Proof.
  intros w. unfold unique_filename.
  destruct (generate_unique_filename_spec (files w) out t e)
    as (k & Hk & _ & _ & Hret & _).
  rewrite Hret by lia. cbn. split; [done|lia].
Qed.

Lemma tame_ydl_extract_info env opts url : tame (ydl_extract_info env opts url).
Proof.
  intros w. unfold ydl_extract_info.
  destruct (extract_info env _ opts url); cbn; split; try done; lia.
Qed.

Lemma tame_ydl_download env opts urls : tame (ydl_download env opts urls).
Proof.
  intros w. unfold ydl_download.
  destruct (download env _ opts urls _) as [[] fs']; cbn; split; try done; lia.
Qed.

Lemma tame_ffmpeg env i o kw : tame (ffmpeg env i o kw).
Proof.
  intros w. unfold ffmpeg.
  destruct (ffmpeg_run env _ i o kw _) as [[] fs']; cbn; split; try done; lia.
Qed.

Lemma consuming_input prompt : consuming (input prompt).
Proof.
  intros w a w' H. unfold input in H.
  destruct (stdin w) eqn:Hw; simplify_eq. cbn. lia.
Qed.

Lemma consuming_bind_l {A B} (m : M A) (k : A → M B) :
  consuming m → (∀ a, tame (k a)) → consuming (bind m k).
Proof.
  intros Hm Hk w b w' H. unfold bind in H.
  destruct (m w) as [[a| | |] w1] eqn:Hmw; try done.
  apply Hm in Hmw. specialize (Hk a w1). rewrite H in Hk. cbn in Hk. lia.
Qed.

(** A loop whose body reads a line in every turn ends, within one turn per
    unread line and one more, by returning, raising or waiting for a
    line. *)
Lemma while_true_tame {A} (body : M (option A)) :
  tame body → consuming body →
  ∀ fuel w, length (stdin w) < fuel →
    fst (while_true fuel body w) ≠ Diverged ∧
    length (stdin (snd (while_true fuel body w))) ≤ length (stdin w).
Proof.
  intros Ht Hc. induction fuel as [|fuel IH]; intros w Hlt; [lia|].
  cbn [while_true]. pose proof (Ht w) as [Hnd Hle].
  destruct (body w) as [[[a|]| | |] w1] eqn:Hb; cbn in *;
    try (split; [done|lia]).
  apply Hc in Hb. destruct (IH w1) as [? ?]; [lia|]. split; [done|lia].
Qed.

Lemma tame_while_input {A} (body : M (option A)) :
  tame body → consuming body → tame (while_input body).
Proof. intros Ht Hc w. apply while_true_tame; [done..|lia]. Qed.

Lemma consuming_while_input {A} (body : M (option A)) :
  consuming body → consuming (while_input body).
Proof.
  intros Hc w a w' H. unfold while_input in H.
  revert H. generalize (S (length (stdin w))). intros fuel. revert w.
  induction fuel as [|fuel IH]; intros w H; [done|].
  cbn [while_true] in H.
  destruct (body w) as [[[x|]| | |] w1] eqn:Hb; simplify_eq.
  - by apply Hc in Hb.
  - apply Hc in Hb. apply IH in H. lia.
Qed.

Ltac tame_step :=
  match goal with
  | |- tame (ret _) => apply tame_ret
  | |- tame (bind _ _) => apply tame_bind; [|intros ?]
  | |- tame (try_except _ _) =>
      apply tame_try_except; [|intros [] ? ?; simplify_eq]
  | |- tame (input _) => apply tame_input
  | |- tame (logging _ _) => apply tame_logging
  | |- tame (mkdir_parents _) => apply tame_mkdir_parents
  | |- tame (unlink _) => apply tame_unlink
  | |- tame (rename _ _) => apply tame_rename
  | |- tame (utime _) => apply tame_utime
  | |- tame (unique_filename _ _ _) => apply tame_unique_filename
  | |- tame (ydl_extract_info _ _ _) => apply tame_ydl_extract_info
  | |- tame (ydl_download _ _ _) => apply tame_ydl_download
  | |- tame (ffmpeg _ _ _ _) => apply tame_ffmpeg
  | |- tame (while_input _) => apply tame_while_input
  | |- consuming (input _) => apply consuming_input
  | |- consuming (while_input _) => apply consuming_while_input
  | |- consuming (bind _ _) => apply consuming_bind_l; [|intros ?]
  | |- tame (match ?x with _ => _ end) => destruct x
  | |- tame (if ?b then _ else _) => destruct b
  end.

Ltac tame := repeat tame_step.

Lemma tame_prompt_continue env : tame (YtMediaDownload.prompt_continue env).
Proof. unfold YtMediaDownload.prompt_continue. tame. Qed.

Lemma tame_prompt_user_input env : tame (YtMediaDownload.prompt_user_input env).
Proof. unfold YtMediaDownload.prompt_user_input. tame. Qed.

Lemma consuming_prompt_user_input env :
  consuming (YtMediaDownload.prompt_user_input env).
Proof. unfold YtMediaDownload.prompt_user_input. tame. Qed.

Lemma tame_download_media env url dp fc :
  tame (YtMediaDownload.download_media env url dp fc).
Proof. unfold YtMediaDownload.download_media. tame. Qed.

Lemma tame_main_loop_body env dp : tame (YtMediaDownload.main_loop_body env dp).
Proof.
  unfold YtMediaDownload.main_loop_body.
  apply tame_bind; [apply tame_prompt_user_input|intros [url fc]].
  apply tame_bind; [apply tame_download_media|intros [fp t]].
  unfold YtMediaDownload.convert_to_mp3, YtMediaDownload.reencode_to_mp4.
  apply tame_bind; [tame|intros _].
  apply tame_bind; [apply tame_prompt_continue|intros c]. tame.
Qed.

Lemma consuming_main_loop_body env dp :
  consuming (YtMediaDownload.main_loop_body env dp).
Proof.
  unfold YtMediaDownload.main_loop_body.
  apply consuming_bind_l; [apply consuming_prompt_user_input|intros [url fc]].
  apply tame_bind; [apply tame_download_media|intros [fp t]].
  unfold YtMediaDownload.convert_to_mp3, YtMediaDownload.reencode_to_mp4.
  apply tame_bind; [tame|intros _].
  apply tame_bind; [apply tame_prompt_continue|intros c]. tame.
Qed.

(** [main] of [ytmediadownload.py], run on any finite list of typed lines
    with any collaborators, ends by returning, by raising or by waiting
    for a line: no loop of it goes round for ever without reading. *)
Lemma main_tame env : tame (YtMediaDownload.main env).
Proof.
  unfold YtMediaDownload.main. tame.
  - apply tame_main_loop_body.
  - apply consuming_main_loop_body.
Qed.

Lemma qualityselect_tame_prompt_user_input env :
  tame (YtMediaQualitySelect.prompt_user_input env).
Proof. unfold YtMediaQualitySelect.prompt_user_input. tame. Qed.

Lemma qualityselect_consuming_prompt_user_input env :
  consuming (YtMediaQualitySelect.prompt_user_input env).
Proof. unfold YtMediaQualitySelect.prompt_user_input. tame. Qed.

Lemma qualityselect_main_tame env : tame (YtMediaQualitySelect.main env).
Proof.
  unfold YtMediaQualitySelect.main. tame.
  - unfold YtMediaQualitySelect.main_loop_body.
    apply tame_bind; [apply qualityselect_tame_prompt_user_input|].
    intros [[[url fc] aq] vq].
    unfold YtMediaQualitySelect.download_video, YtMediaQualitySelect.convert_to_mp3.
    tame.
  - unfold YtMediaQualitySelect.main_loop_body.
    apply consuming_bind_l; [apply qualityselect_consuming_prompt_user_input|].
    intros [[[url fc] aq] vq].
    unfold YtMediaQualitySelect.download_video, YtMediaQualitySelect.convert_to_mp3.
    tame.
Qed.

Lemma py_tame_process env dp url fc aq vq :
  tame (YtMediaDownloadPy.process env dp url fc aq vq).
Proof.
  unfold YtMediaDownloadPy.process, YtMediaDownloadPy.download_video,
    YtMediaDownloadPy.convert_to_mp3.
  tame.
Qed.

Lemma py_main_tame env : tame (YtMediaDownloadPy.main env).
Proof.
  unfold YtMediaDownloadPy.main. tame.
  - unfold YtMediaDownloadPy.main_loop_body. tame; apply py_tame_process.
  - unfold YtMediaDownloadPy.main_loop_body. tame; apply py_tame_process.
Qed.

(** X2: run on the lines typed so far, with any collaborators, each
    [main] returns, lets an exception out, or waits at a prompt; none runs
    out of fuel. *)
Theorem mains_end_or_wait env w :
  fst (YtMediaDownload.main env w) ≠ Diverged ∧
  fst (YtMediaQualitySelect.main env w) ≠ Diverged ∧
  fst (YtMediaDownloadPy.main env w) ≠ Diverged.
Proof.
  split_and!.
  - apply main_tame.
  - apply qualityselect_main_tame.
  - apply py_main_tame.
Qed.

(** ** More on the allocator *)

Lemma split_no_sep s : sep ∉ s → split sep s = [s].
Proof.
  induction s as [|c s IH]; [done|]. intros H.
  apply not_elem_of_cons in H as [Hc Hs]. cbn [split].
  destruct (decide (c = sep)); [done|]. by rewrite IH.
Qed.

(** With a title that is not empty and, like the extension, holds no
    ['/'], every candidate is the output directory followed by one more
    component. *)
Lemma candidate_in_directory out t e k :
  t ≠ [] → sep ∉ t → sep ∉ e →
  candidate out t e k = mkPath (root out) (parts out ++ [t ++ infix_of k ++ e]).
Proof.
  intros Ht Hst Hse. rewrite candidate_infix. unfold truediv.
  rewrite startswith_sep_candidate.
  destruct t as [|c t]; [done|]. apply not_elem_of_cons in Hst as [Hc Hst].
  cbn [startswith]. rewrite bool_decide_eq_false_2 by done. cbn [andb].
  f_equal. f_equal. unfold parse_parts. rewrite split_no_sep.
  - rewrite filter_cons, filter_nil. rewrite decide_True; [done|].
    assert (Hlen : 0 < length (infix_of k)) by (destruct k; cbn; lia).
    split; intros H; apply (f_equal length) in H;
      cbn [app length] in H; rewrite !length_app in H; cbn in H; lia.
  - rewrite !not_elem_of_app, not_elem_of_cons.
    split_and!; [done..|apply infix_no_sep|done].
Qed.

Lemma probe_frame fs fs' out t e :
  (∀ k, candidate out t e k ∈ fs ↔ candidate out t e k ∈ fs') →
  ∀ fuel k,
    probe fuel fs out t e (candidate out t e k) (S k)
    = probe fuel fs' out t e (candidate out t e k) (S k).
Proof.
  intros Hsame. induction fuel as [|fuel IH]; intros k; [done|].
  rewrite !probe_step. unfold exists_.
  rewrite (bool_decide_ext _ _ (Hsame k)). by rewrite IH.
Qed.

(** X5: the allocator looks at nothing but its own candidates: two
    filesystem states in which the same candidates exist give the same
    result, whatever else differs between them. *)
Theorem generate_unique_filename_frame fs fs' out t e fuel :
  (∀ k, candidate out t e k ∈ fs ↔ candidate out t e k ∈ fs') →
  generate_unique_filename fuel fs out t e = generate_unique_filename fuel fs' out t e.
Proof.
  intros Hsame. rewrite !generate_unique_filename_probe. by apply probe_frame.
Qed.

(** A file that is no candidate is added next to [t.mp3]. *)
Lemma generate_unique_filename_frame_witness :
  let dir := parse_path (py "/home/u/Downloads") in
  let a := (dir / py "t.mp3")%path in
  generate_unique_filename 5 {[ a ]} dir (py "t") (py "mp3")
  = generate_unique_filename 5 {[ a; (dir / py "other.txt")%path ]} dir (py "t") (py "mp3").
Proof.
  intros dir a. apply generate_unique_filename_frame. intros k.
  rewrite elem_of_union, !elem_of_singleton. split; [by left|].
  intros [H|H]; [done|]. exfalso. revert H.
  rewrite candidate_in_directory.
  - intros H. apply (f_equal parts) in H. vm_compute in H. discriminate H.
  - done.
  - by apply (bool_decide_eq_false (sep ∈ py "t")); vm_compute.
  - by apply (bool_decide_eq_false (sep ∈ py "mp3")); vm_compute.
Defined.

(** X6: with a title that is not empty and holds no ['/'] (and an
    extension without ['/']), whatever the allocator returns is a file
    directly inside the output directory, named by the title, an optional
    suffix [_i] and the extension. *)
Theorem generate_unique_filename_in_directory fs out t e fuel p :
  t ≠ [] → sep ∉ t → sep ∉ e →
  generate_unique_filename fuel fs out t e = Some p →
  root p = root out ∧
  ∃ k, parts p = parts out ++ [t ++ infix_of k ++ e].
Proof.
  intros Ht Hst Hse Hp.
  destruct (generate_unique_filename_spec fs out t e) as (k & _ & _ & _ & _ & Honly).
  apply Honly in Hp as ->. rewrite candidate_in_directory by done.
  split; [done|by exists k].
Qed.

Lemma generate_unique_filename_in_directory_witness :
  let dir := parse_path (py "/home/u/Downloads") in
  let p := (dir / py "t_1.mp3")%path in
  root p = root dir ∧ ∃ k, parts p = parts dir ++ [py "t" ++ infix_of k ++ py "mp3"].
Proof.
  intros dir p.
  apply (generate_unique_filename_in_directory
           {[ (dir / py "t.mp3")%path ]} dir (py "t") (py "mp3") 2 p).
  - done.
  - by apply (bool_decide_eq_false (sep ∈ py "t")); vm_compute.
  - by apply (bool_decide_eq_false (sep ∈ py "mp3")); vm_compute.
  - by vm_compute.
Defined.

(** X7: a title that starts with ['/'] makes the allocator ignore the
    output directory: the result is the same for any two directories. *)
Theorem generate_unique_filename_absolute_title fs out out' t e fuel :
  startswith [sep] t = true →
  generate_unique_filename fuel fs out t e = generate_unique_filename fuel fs out' t e.
Proof.
  intros Habs.
  assert (Hc : ∀ k, candidate out t e k = candidate out' t e k).
  { intros k. rewrite !candidate_infix. unfold truediv.
    by rewrite startswith_sep_candidate, Habs. }
  rewrite !generate_unique_filename_probe.
  generalize 0. induction fuel as [|fuel IH]; intros k; [done|].
  rewrite !probe_step, Hc. destruct (exists_ fs _); [apply IH|done].
Qed.

Lemma generate_unique_filename_absolute_title_witness :
  generate_unique_filename 3 ∅ (parse_path (py "/home/u/Downloads")) (py "/etc/x") (py "mp3")
  = generate_unique_filename 3 ∅ (parse_path (py "/tmp")) (py "/etc/x") (py "mp3").
Proof. apply generate_unique_filename_absolute_title. by vm_compute. Defined.

(** X8: when none of its candidates exists at first, and each returned
    path is created before the next call, the [n+1]-th call returns
    candidate [n]: [t.ext], then [t_1.ext], [t_2.ext], and so on. *)
Theorem generate_unique_filename_nth fs out t e n fuel :
  (∀ k, candidate out t e k ∉ fs) → n < fuel →
  generate_unique_filename fuel
    (fs ∪ list_to_set (candidate out t e <$> seq 0 n)) out t e
  = Some (candidate out t e n).
Proof.
  intros Hfree Hfuel. rewrite generate_unique_filename_probe.
  apply (probe_finds _ out t e n fuel 0); [| |done].
  - intros j Hj. apply elem_of_union_r, elem_of_list_to_set, list_elem_of_fmap.
    exists j. split; [done|]. apply elem_of_seq. lia.
  - cbn [Nat.add]. rewrite not_elem_of_union. split; [apply Hfree|].
    rewrite elem_of_list_to_set, list_elem_of_fmap. intros (j & Hj & Hin).
    apply (inj _) in Hj as <-. apply elem_of_seq in Hin. lia.
Qed.

Lemma generate_unique_filename_nth_witness :
  let dir := parse_path (py "/home/u/Downloads") in
  generate_unique_filename 4
    (∅ ∪ list_to_set (candidate dir (py "t") (py "mp3") <$> seq 0 3)) dir (py "t") (py "mp3")
  = Some (dir / py "t_3.mp3")%path.
Proof.
  intros dir.
  apply (generate_unique_filename_nth ∅ dir (py "t") (py "mp3") 3 4).
  - intros k. apply not_elem_of_empty.
  - lia.
Defined.

(** ** What the scripts never do *)

Lemma within_ret {A} E X (Q : A → Prop) a : Q a → within E X Q (ret a).
Proof.
  intros Ha w. cbn. split; [|done]. exists []. by rewrite app_nil_r.
Qed.

Lemma within_bind {A B} E X (Q' : A → Prop) (Q : B → Prop) m k :
  within E X Q' m → (∀ a, Q' a → within E X Q (k a)) →
  within E X Q (bind m k).
Proof.
  intros Hm Hk w. unfold bind. destruct (Hm w) as [(evs & Htr & Hevs) Hres].
  destruct (m w) as [[a| | |] w1]; cbn in *; try (split; [eauto|done]).
  destruct (Hk a Hres w1) as [(evs' & Htr' & Hevs') Hres'].
  split; [|done]. exists (evs ++ evs').
  rewrite Htr', Htr, app_assoc. split; [done|]. by apply Forall_app.
Qed.

Lemma within_try_except {A} E X X' (Q : A → Prop) m handler :
  within E X' Q m →
  (∀ e, X' e → match handler e with
               | Some h => within E X Q h
               | None => X e
               end) →
  within E X Q (try_except m handler).
Proof.
  intros Hm Hh w. unfold try_except.
  destruct (Hm w) as [(evs & Htr & Hevs) Hres].
  destruct (m w) as [[a|e| |] w1]; cbn in *; try (split; [eauto|done]).
  specialize (Hh e Hres). destruct (handler e) as [h|]; cbn; [|split; [eauto|done]].
  destruct (Hh w1) as [(evs' & Htr' & Hevs') Hres'].
  split; [|done]. exists (evs ++ evs').
  rewrite Htr', Htr, app_assoc. split; [done|]. by apply Forall_app.
Qed.

Lemma within_while_true {A} E X (Q : A → Prop) body fuel :
  within E X (fun o => ∀ a, o = Some a → Q a) body →
  within E X Q (while_true fuel body).
Proof.
  intros Hb. induction fuel as [|fuel IH]; intros w.
  - cbn. split; [|done]. exists []. by rewrite app_nil_r.
  - cbn [while_true]. destruct (Hb w) as [(evs & Htr & Hevs) Hres].
    destruct (body w) as [[[a|]| | |] w1]; cbn in *; try (split; [eauto|done]).
    + split; [eauto|]. by apply Hres.
    + destruct (IH w1) as [(evs' & Htr' & Hevs') Hres'].
      split; [|done]. exists (evs ++ evs').
      rewrite Htr', Htr, app_assoc. split; [done|]. by apply Forall_app.
Qed.

Lemma within_while_input {A} E X (Q : A → Prop) body :
  within E X (fun o => ∀ a, o = Some a → Q a) body →
  within E X Q (while_input body).
Proof. intros Hb w. by apply within_while_true. Qed.

Lemma within_weaken {A} E X (Q Q' : A → Prop) m :
  within E X Q m → (∀ a, Q a → Q' a) → within E X Q' m.
Proof.
  intros Hm HQ w. destruct (Hm w) as [Hev Hres]. split; [done|].
  destruct (fst (m w)); auto.
Qed.

Ltac one_event :=
  cbn; split; [eexists [_]; split; [reflexivity|by constructor]|auto].

Lemma within_input E X prompt :
  E (Prompted prompt) → within E X (fun _ => True) (input prompt).
Proof.
  intros He w. unfold input.
  destruct (stdin w); cbn; one_event.
Qed.

Lemma within_logging E X level msg :
  E (Logged level msg) → within E X (fun _ => True) (logging level msg).
Proof. intros He w. cbn. one_event. Qed.

Lemma within_mkdir_parents E X p :
  E (MadeDirs p) → within E X (fun _ => True) (mkdir_parents p).
Proof. intros He w. cbn. one_event. Qed.

Lemma within_unlink E (X : Exn → Prop) p :
  E (Unlinked p) → X (no_such_file p) → within E X (fun _ => True) (unlink p).
Proof.
  intros He Hx w. unfold unlink. destruct (exists_ _ _); cbn; one_event.
Qed.

Lemma within_rename E (X : Exn → Prop) p q :
  E (Renamed p q) → X (no_such_files p q) → within E X (fun _ => True) (rename p q).
Proof.
  intros He Hx w. unfold rename. destruct (exists_ _ _); cbn; one_event.
Qed.

Lemma within_utime E (X : Exn → Prop) p :
  E (Touched p) → X no_such_file_unnamed → within E X (fun _ => True) (utime p).
Proof.
  intros He Hx w. unfold utime. destruct (exists_ _ _); cbn; one_event.
Qed.

Lemma within_unique_filename E X out t e :
  within E X (fun _ => True) (unique_filename out t e).
Proof.
  intros w. unfold unique_filename.
  destruct (generate_unique_filename _ _ _ _ _); cbn;
    (split; [|done]); exists []; by rewrite app_nil_r.
Qed.

Lemma within_ydl_extract_info env E (X : Exn → Prop) opts url :
  E (ExtractedInfo opts url) → (∀ msg, X (DownloadError msg)) →
  within E X (fun _ => True) (ydl_extract_info env opts url).
Proof.
  intros He Hx w. unfold ydl_extract_info.
  destruct (extract_info env _ opts url); cbn; one_event.
Qed.

Lemma within_ydl_download env E (X : Exn → Prop) opts urls :
  E (Downloaded opts urls) → (∀ msg, X (DownloadError msg)) →
  within E X (fun _ => True) (ydl_download env opts urls).
Proof.
  intros He Hx w. unfold ydl_download.
  destruct (download env _ opts urls _) as [[] fs']; cbn; one_event.
Qed.

Lemma within_ffmpeg env E (X : Exn → Prop) i o kw :
  E (RanFfmpeg i o kw) → (∀ msg, X (FfmpegError msg)) →
  within E X (fun _ => True) (ffmpeg env i o kw).
Proof.
  intros He Hx w. unfold ffmpeg.
  destruct (ffmpeg_run env _ i o kw _) as [[] fs']; cbn; one_event.
Qed.

Ltac within_leaf lem :=
  apply (within_weaken _ _ (fun _ => True));
  [apply lem;
   cbn [spares_other_files is_file_not_found
        no_such_file no_such_files no_such_file_unnamed]; eauto
  |intros; exact I || auto].

Ltac within_step :=
  match goal with
  | |- within _ _ _ (ret _) => apply within_ret; cbn; try done; auto
  | |- within _ _ _ (bind _ _) =>
      apply (within_bind _ _ (fun _ => True)); [|intros ? _]
  | |- within _ _ _ (input _) => within_leaf within_input
  | |- within _ _ _ (logging _ _) => within_leaf within_logging
  | |- within _ _ _ (mkdir_parents _) => within_leaf within_mkdir_parents
  | |- within _ _ _ (unlink _) => within_leaf within_unlink
  | |- within _ _ _ (rename _ _) => within_leaf within_rename
  | |- within _ _ _ (utime _) => within_leaf within_utime
  | |- within _ _ _ (unique_filename _ _ _) => within_leaf within_unique_filename
  | |- within _ _ _ (ydl_extract_info _ _ _) => within_leaf within_ydl_extract_info
  | |- within _ _ _ (ydl_download _ _ _) => within_leaf within_ydl_download
  | |- within _ _ _ (ffmpeg _ _ _ _) => within_leaf within_ffmpeg
  | |- within _ _ _ (while_input _) => apply within_while_input
  | |- within _ _ _ (match ?x with _ => _ end) => destruct x
  | |- within _ _ _ (if ?b then _ else _) => destruct b
  end.

Ltac within_go := repeat within_step.

(** A handler for one kind of exception around a body that raises no
    other kind. *)
Lemma within_catch {A} E X (K : Exn → Prop) (Q : A → Prop) m handler :
  within E K Q m →
  (∀ e, K e → ∃ h, handler e = Some h ∧ within E X Q h) →
  within E X Q (try_except m handler).
Proof.
  intros Hm Hh. apply (within_try_except _ _ K); [done|].
  intros e He. by destruct (Hh e He) as (h & -> & Hw).
Qed.

Section ytmediadownload_within.
Context (env : Env) (dp : Path).
Import YtMediaDownload.

Local Abbreviation E := (spares_other_files dp).
Local Abbreviation X := is_file_not_found.

Lemma temp_audio : (dp / py "audio.m4a")%path ∈ temp_files dp.
Proof. apply list_elem_of_here. Qed.

Lemma temp_video : (dp / py "video.mp4")%path ∈ temp_files dp.
Proof. apply list_elem_of_further, list_elem_of_here. Qed.

Lemma download_media_within url fc :
  within E X (fun r => ∀ fp, r.1 = Some fp → fp ∈ temp_files dp)
    (download_media env url dp fc).
Proof.
  unfold download_media. apply (within_catch _ _ is_download_error).
  - unfold is_download_error. within_go.
    intros fp Hfp. destruct (decide _); injection Hfp as <-;
      [apply temp_audio|apply temp_video].
  - intros e [msg ->]. eexists. split; [done|]. within_go.
Qed.

Lemma convert_to_mp3_within input_file title :
  input_file ∈ temp_files dp →
  within E X (fun _ => True) (convert_to_mp3 env input_file dp title).
Proof.
  intros Hin. unfold convert_to_mp3. within_go.
  apply (within_catch _ _ is_ffmpeg_error).
  - unfold is_ffmpeg_error. within_go. by apply list_elem_of_fmap_2.
  - intros e [msg ->]. eexists. split; [done|]. within_go.
Qed.

Lemma reencode_to_mp4_within input_file output_file :
  input_file ∈ temp_files dp →
  within E X (fun _ => True) (reencode_to_mp4 env input_file output_file).
Proof.
  intros Hin. unfold reencode_to_mp4.
  apply (within_catch _ _ is_ffmpeg_error).
  - unfold is_ffmpeg_error. within_go. by apply list_elem_of_fmap_2.
  - intros e [msg ->]. eexists. split; [done|]. within_go.
Qed.

Lemma prompt_user_input_within :
  within E X (fun _ => True) (prompt_user_input env).
Proof. unfold prompt_user_input. within_go. Qed.

Lemma prompt_continue_within :
  within E X (fun _ => True) (prompt_continue env).
Proof. unfold prompt_continue. within_go. Qed.

Lemma main_loop_body_within :
  within E X (fun _ => True) (main_loop_body env dp).
Proof.
  unfold main_loop_body.
  apply (within_bind _ _ (fun _ => True)); [apply prompt_user_input_within|].
  intros [url fc] _.
  eapply within_bind; [apply download_media_within|].
  intros [fp t] Hfp. cbn in Hfp.
  apply (within_bind _ _ (fun _ => True)).
  - destruct fp as [fp|]; [|within_go]. specialize (Hfp fp eq_refl).
    destruct t as [[|c t]|]; [within_go| |within_go].
    destruct (decide (fc = py "mp3")).
    + apply (within_bind _ _ (fun _ => True)); [within_go|intros _ _].
      apply (within_bind _ _ (fun _ => True));
        [by apply convert_to_mp3_within|intros mp3_file _].
      apply (within_bind _ _ (fun _ => True)); [within_go|intros _ _].
      apply (within_try_except _ _ X); [within_go|].
      intros exn Hexn. within_go.
    + apply (within_bind _ _ (fun _ => True)); [within_go|intros out _].
      apply (within_bind _ _ (fun _ => True));
        [by apply reencode_to_mp4_within|intros r _].
      within_go.
  - intros _ _.
    apply (within_bind _ _ (fun _ => True)); [apply prompt_continue_within|].
    intros c _. within_go.
Qed.
End ytmediadownload_within.

Lemma ytmediadownload_main_within env :
  within (spares_other_files (home env / py "Downloads")) is_file_not_found
    (fun _ => True) (YtMediaDownload.main env).
Proof.
  unfold YtMediaDownload.main. within_go.
  eapply within_weaken; [apply main_loop_body_within|done].
Qed.

Section qualityselect_within.
Context (env : Env) (dp : Path).

Local Abbreviation E := (spares_other_files dp).
Local Abbreviation X := is_file_not_found.

Lemma qualityselect_download_video_within url fc aq vq :
  within E X (fun r => ∀ fp, r.1 = Some fp → fp ∈ temp_files dp)
    (YtMediaQualitySelect.download_video env url dp fc aq vq).
Proof.
  unfold YtMediaQualitySelect.download_video.
  apply (within_catch _ _ is_download_error).
  - unfold is_download_error. within_go.
    intros fp Hfp. destruct (decide _); injection Hfp as <-;
      [apply temp_audio|apply temp_video].
  - intros e [msg ->]. eexists. split; [done|]. within_go.
Qed.

Lemma qualityselect_convert_to_mp3_within input_file title quality :
  input_file ∈ temp_files dp →
  within E X (fun _ => True)
    (YtMediaQualitySelect.convert_to_mp3 env input_file dp title quality).
Proof.
  intros Hin. unfold YtMediaQualitySelect.convert_to_mp3. within_go.
  apply (within_catch _ _ is_ffmpeg_error).
  - unfold is_ffmpeg_error. within_go. by apply list_elem_of_fmap_2.
  - intros e [msg ->]. eexists. split; [done|]. within_go.
Qed.

Lemma qualityselect_main_loop_body_within :
  within E X (fun _ => True) (YtMediaQualitySelect.main_loop_body env dp).
Proof.
  unfold YtMediaQualitySelect.main_loop_body.
  apply (within_bind _ _ (fun _ => True));
    [unfold YtMediaQualitySelect.prompt_user_input; within_go|].
  intros [[[url fc] aq] vq] _.
  destruct url as [[|c url]|]; [within_go| |within_go].
  eapply within_bind; [apply qualityselect_download_video_within|].
  intros [fp t] Hfp. cbn in Hfp.
  apply (within_bind _ _ (fun _ => True)); [|intros _ _; within_go].
  destruct fp as [fp|]; [|within_go]. specialize (Hfp fp eq_refl).
  destruct t as [[|c' t]|]; [within_go| |within_go].
  destruct (decide (fc = Some (py "mp3"))).
  - apply (within_bind _ _ (fun _ => True));
      [by apply qualityselect_convert_to_mp3_within|intros mp3_file _].
    apply (within_bind _ _ (fun _ => True)); [within_go|intros _ _].
    apply (within_try_except _ _ X); [within_go|].
    intros exn Hexn. within_go.
  - within_go.
Qed.

Lemma py_download_video_within url fc aq vq :
  within E X (fun r => ∀ fp, r.1 = Some fp → fp ∈ temp_files dp)
    (YtMediaDownloadPy.download_video env url dp fc aq vq).
Proof.
  unfold YtMediaDownloadPy.download_video.
  apply (within_catch _ _ is_download_error).
  - unfold is_download_error.
    apply (within_bind _ _ (fun _ => True)); [within_go|intros info _].
    apply (within_bind _ _ (fun _ => True)); [within_go|intros _ _].
    apply (within_bind _ _ (fun _ => True)); [within_go|intros _ _].
    destruct (decide _); apply within_ret; intros fp [= <-];
      [apply temp_audio|apply temp_video].
  - intros e [msg ->]. eexists. split; [done|]. within_go.
Qed.

Lemma py_convert_to_mp3_within input_file title quality :
  input_file ∈ temp_files dp →
  within E X (fun _ => True)
    (YtMediaDownloadPy.convert_to_mp3 env input_file dp title quality).
Proof.
  intros Hin. unfold YtMediaDownloadPy.convert_to_mp3. within_go.
  apply (within_catch _ _ is_ffmpeg_error).
  - unfold is_ffmpeg_error. within_go. by apply list_elem_of_fmap_2.
  - intros e [msg ->]. eexists. split; [done|]. within_go.
Qed.

Lemma py_process_within url fc aq vq :
  within E X (fun _ => True) (YtMediaDownloadPy.process env dp url fc aq vq).
Proof.
  unfold YtMediaDownloadPy.process.
  eapply within_bind; [apply py_download_video_within|].
  intros [fp t] Hfp. cbn in Hfp.
  apply (within_bind _ _ (fun _ => True)); [|intros _ _; within_go].
  destruct fp as [fp|]; [|within_go]. specialize (Hfp fp eq_refl).
  destruct t as [[|c' t]|]; [within_go| |within_go].
  destruct (decide (fc = Some (py "mp3"))).
  - apply (within_bind _ _ (fun _ => True));
      [by apply py_convert_to_mp3_within|intros mp3_file _].
    apply (within_bind _ _ (fun _ => True)); [within_go|intros _ _].
    apply (within_try_except _ _ X); [within_go|].
    intros exn Hexn. within_go.
  - within_go.
Qed.

Lemma py_main_loop_body_within :
  within E X (fun _ => True) (YtMediaDownloadPy.main_loop_body env dp).
Proof.
  unfold YtMediaDownloadPy.main_loop_body. within_go; apply py_process_within.
Qed.
End qualityselect_within.

Lemma qualityselect_main_within env :
  within (spares_other_files (home env / py "Downloads")) is_file_not_found
    (fun _ => True) (YtMediaQualitySelect.main env).
Proof.
  unfold YtMediaQualitySelect.main. within_go.
  eapply within_weaken; [apply qualityselect_main_loop_body_within|done].
Qed.

Lemma py_main_within env :
  within (spares_other_files (home env / py "Downloads")) is_file_not_found
    (fun _ => True) (YtMediaDownloadPy.main env).
Proof.
  unfold YtMediaDownloadPy.main. within_go.
  eapply within_weaken; [apply py_main_loop_body_within|done].
Qed.

(** X9: whatever the user types and the collaborators do, each script
    unlinks and renames nothing but [audio.m4a] and [video.mp4] of the
    download directory, and hands ffmpeg no other input file. *)
Theorem mains_spare_other_files env w :
  let dp := (home env / py "Downloads")%path in
  (∃ evs, trace (snd (YtMediaDownload.main env w)) = trace w ++ evs
          ∧ Forall (spares_other_files dp) evs) ∧
  (∃ evs, trace (snd (YtMediaQualitySelect.main env w)) = trace w ++ evs
          ∧ Forall (spares_other_files dp) evs) ∧
  (∃ evs, trace (snd (YtMediaDownloadPy.main env w)) = trace w ++ evs
          ∧ Forall (spares_other_files dp) evs).
Proof.
  intros dp. split_and!.
  - apply ytmediadownload_main_within.
  - apply qualityselect_main_within.
  - apply py_main_within.
Qed.

(** X10: no [DownloadError] and no [ffmpeg.Error] leaves [main] of any of
    the three scripts: whatever the collaborators raise is caught where it
    is raised, so an exception that ends [main] is neither. *)
Theorem mains_catch_collaborator_errors env w e :
  fst (YtMediaDownload.main env w) = Raised e ∨
  fst (YtMediaQualitySelect.main env w) = Raised e ∨
  fst (YtMediaDownloadPy.main env w) = Raised e →
  (∀ msg, e ≠ DownloadError msg) ∧ (∀ msg, e ≠ FfmpegError msg).
Proof.
  assert (Hx : is_file_not_found e →
               (∀ msg, e ≠ DownloadError msg) ∧ (∀ msg, e ≠ FfmpegError msg)).
  { by destruct e. }
  intros [H|[H|H]]; apply Hx.
  - pose proof (ytmediadownload_main_within env w) as [_ Hr]. by rewrite H in Hr.
  - pose proof (qualityselect_main_within env w) as [_ Hr]. by rewrite H in Hr.
  - pose proof (py_main_within env w) as [_ Hr]. by rewrite H in Hr.
Qed.

(** The download leaves [video.webm]; renaming [video.mp4] to [t.mp4]
    fails, and that exception ends [main] of [ytmediaqualityselect.py]. *)
Lemma mains_catch_collaborator_errors_witness :
  let e := no_such_files (parse_path (py "/home/u/Downloads/video.mp4"))
                         (parse_path (py "/home/u/Downloads/t.mp4")) in
  (∀ msg, e ≠ DownloadError msg) ∧ (∀ msg, e ≠ FfmpegError msg).
Proof.
  intros e.
  apply (mains_catch_collaborator_errors (stray_env (py "t"))
           (typed ["https://www.youtube.com/watch?v=1"; "mp4"; "720p"]%string)).
  right. left. by vm_compute.
Defined.

(** ** What the prompts return *)

Lemma bind_returned {A B} (m : M A) (k : A → M B) w b w' :
  bind m k w = (Returned b, w') →
  ∃ a w1, m w = (Returned a, w1) ∧ k a w1 = (Returned b, w').
Proof.
  unfold bind. destruct (m w) as [[a| | |] w1]; try done. eauto.
Qed.

Lemma bind_eq {A B} (m : M A) (k : A → M B) w a w1 :
  m w = (Returned a, w1) → bind m k w = k a w1.
Proof. intros H. unfold bind. by rewrite H. Qed.

Lemma input_returned prompt w line w' :
  input prompt w = (Returned line, w') →
  stdin w = line :: stdin w'.
Proof. unfold input. destruct (stdin w); intros; simplify_eq. done. Qed.

(** [prompt_user_input] of [ytmediadownload.py] returns only a URL that
    starts with [https://www.youtube.com/] and a format that is ['mp3'] or
    ['mp4']. *)
Lemma prompt_user_input_valid env w url format_choice w' :
  YtMediaDownload.prompt_user_input env w = (Returned (url, format_choice), w') →
  startswith (py "https://www.youtube.com/") url = true ∧
  (format_choice = py "mp3" ∨ format_choice = py "mp4").
Proof.
  intros H. unfold YtMediaDownload.prompt_user_input in H.
  apply bind_returned in H as (url' & w1 & Hurl & H).
  apply bind_returned in H as (fc & w2 & Hfc & H).
  unfold ret in H. simplify_eq.
  apply while_true_returned in Hurl as (wa & Hurl).
  apply while_true_returned in Hfc as (wb & Hfc).
  apply bind_returned in Hurl as (line & wa' & _ & Hurl).
  apply bind_returned in Hfc as (line' & wb' & _ & Hfc).
  destruct (startswith _ line) eqn:Hs; [|done].
  case_bool_decide as Hin; [|done].
  unfold ret in *. simplify_eq. split; [done|].
  apply elem_of_cons in Hin as [?|Hin]; [by left|].
  apply elem_of_cons in Hin as [?|Hin]; [by right|].
  by apply elem_of_nil in Hin.
Qed.

(** A loop that asks until a line is accepted: it rejects the lines
    [bad] one by one, each with one logged error, and returns what it
    makes of the first accepted line. *)
Lemma ask_until_accepted {A} prompt err (accept : str → bool) (f : str → A) bad :
  ∀ fuel w line rest,
  stdin w = bad ++ line :: rest →
  Forall (fun l => accept l = false) bad → accept line = true →
  length bad < fuel →
  while_true fuel
    (let* l := input prompt in
     if accept l then ret (Some (f l)) else (logging ERROR err ;; ret None)) w
  = (Returned (f line),
     {| files := files w; stdin := rest;
        trace := trace w ++ (bad ≫= fun _ => [Prompted prompt; Logged ERROR err])
                         ++ [Prompted prompt] |}).
Proof.
  induction bad as [|b bad IH]; intros [|fuel] w line rest Hin Hbad Hok Hfuel;
    try (cbn in Hfuel; lia).
  - cbn [while_true]. unfold bind at 1, input at 1. rewrite Hin. cbn [app].
    rewrite Hok. reflexivity.
  - apply Forall_cons in Hbad as [Hb Hbad].
    cbn [while_true]. unfold bind at 1, input at 1. rewrite Hin. cbn [app].
    rewrite Hb. unfold bind at 1, logging at 1, ret at 1.
    rewrite (IH fuel _ line rest); [|done|done|done|cbn in Hfuel; lia].
    cbn. by rewrite <-!app_assoc.
Qed.

(** X11: [prompt_user_input] of [ytmediadownload.py] returns only a URL
    that starts with [https://www.youtube.com/] and a format that is
    ['mp3'] or ['mp4'].  It returns the first typed line that starts with
    the prefix and, of the lines after it, the first that is ['mp3'] or
    ['mp4'] once stripped and lowered; every line before them is rejected
    with one logged error and the question is asked again. *)
Theorem prompt_user_input_first_valid env w :
  (∀ url format_choice w',
     YtMediaDownload.prompt_user_input env w = (Returned (url, format_choice), w') →
     startswith (py "https://www.youtube.com/") url = true ∧
     (format_choice = py "mp3" ∨ format_choice = py "mp4")) ∧
  (∀ bad_urls url bad_formats line rest,
     stdin w = bad_urls ++ url :: bad_formats ++ line :: rest →
     Forall (fun l => startswith (py "https://www.youtube.com/") l = false) bad_urls →
     startswith (py "https://www.youtube.com/") url = true →
     Forall (fun l => lower env (strip l) ∉ [py "mp3"; py "mp4"]) bad_formats →
     lower env (strip line) ∈ [py "mp3"; py "mp4"] →
     YtMediaDownload.prompt_user_input env w =
       (Returned (url, lower env (strip line)),
        {| files := files w; stdin := rest;
           trace := trace w
             ++ (bad_urls ≫= fun _ =>
                   [Prompted (py "Enter the URL of the YouTube video: ");
                    Logged ERROR (py "Invalid YouTube URL. Please provide a valid URL.")])
             ++ [Prompted (py "Enter the URL of the YouTube video: ")]
             ++ (bad_formats ≫= fun _ =>
                   [Prompted (py "Choose format (mp3/mp4): ");
                    Logged ERROR (py "Invalid choice. Please choose 'mp3' or 'mp4'.")])
             ++ [Prompted (py "Choose format (mp3/mp4): ")] |})).
Proof.
  split; [apply prompt_user_input_valid|].
  intros bad_urls url bad_formats line rest Hin Hbad Hurl Hbadf Hline.
  unfold YtMediaDownload.prompt_user_input.
  erewrite bind_eq; cycle 1.
  { unfold while_input.
    apply (ask_until_accepted _ _ (startswith (py "https://www.youtube.com/"))
             (fun l => l) bad_urls _ w url (bad_formats ++ line :: rest));
      [done..|]. rewrite Hin, length_app. cbn. lia. }
  erewrite bind_eq; cycle 1.
  { unfold while_input.
    apply (ask_until_accepted _ _
             (fun l => bool_decide (lower env (strip l) ∈ [py "mp3"; py "mp4"]))
             (fun l => lower env (strip l)) bad_formats _ _ line rest).
    - reflexivity.
    - eapply Forall_impl; [exact Hbadf|]. intros l Hl. by apply bool_decide_eq_false.
    - by apply bool_decide_eq_true.
    - cbn. rewrite length_app. cbn. lia. }
  unfold ret. cbn. by rewrite <-!app_assoc.
Qed.

(** The user mistypes the URL and the format once each. *)
Lemma prompt_user_input_first_valid_witness :
  YtMediaDownload.prompt_user_input offline_env
    (typed ["youtube.com/watch?v=1"; "https://www.youtube.com/watch?v=1";
            "avi"; " MP4 "; "no"]%string)
  = (Returned (py "https://www.youtube.com/watch?v=1", py "mp4"),
     {| files := ∅; stdin := [py "no"];
        trace :=
          [Prompted (py "Enter the URL of the YouTube video: ");
           Logged ERROR (py "Invalid YouTube URL. Please provide a valid URL.");
           Prompted (py "Enter the URL of the YouTube video: ");
           Prompted (py "Choose format (mp3/mp4): ");
           Logged ERROR (py "Invalid choice. Please choose 'mp3' or 'mp4'.");
           Prompted (py "Choose format (mp3/mp4): ")] |}).
Proof.
  apply (proj2 (prompt_user_input_first_valid offline_env
                  (typed ["youtube.com/watch?v=1"; "https://www.youtube.com/watch?v=1";
                          "avi"; " MP4 "; "no"]%string))
           [py "youtube.com/watch?v=1"] (py "https://www.youtube.com/watch?v=1")
           [py "avi"] (py " MP4 ") [py "no"]).
  - reflexivity.
  - repeat constructor.
  - reflexivity.
  - constructor; [|constructor].
    apply (bool_decide_eq_false
             (lower offline_env (strip (py "avi")) ∈ [py "mp3"; py "mp4"])).
    by vm_compute.
  - apply (bool_decide_eq_true
             (lower offline_env (strip (py " MP4 ")) ∈ [py "mp3"; py "mp4"])).
    by vm_compute.
Defined.

(** X12: [prompt_user_input] of [ytmediaqualityselect.py] returns four
    [None] or a URL with the YouTube prefix, a format and a quality label
    of the menu: for ['mp3'] an audio quality among ['low'], ['medium'],
    ['high'] and no video quality; for ['mp4'] the audio quality
    ['medium'] and a video quality among ['720p'], ['1080p'], ['1440p'].
    So no label that reaches the quality tables from the prompts is
    missing from them. *)
Theorem qualityselect_prompt_user_input_valid env w u f a v w' :
  YtMediaQualitySelect.prompt_user_input env w = (Returned (u, f, a, v), w') →
  (u = None ∧ f = None ∧ a = None ∧ v = None) ∨
  (∃ url, u = Some url ∧ startswith (py "https://www.youtube.com/") url = true) ∧
  ((f = Some (py "mp3") ∧ v = None ∧
    ∃ q, a = Some q ∧ q ∈ [py "low"; py "medium"; py "high"]
         ∧ is_Some (YtMediaQualitySelect.bitrates !! q)) ∨
   (f = Some (py "mp4") ∧ a = Some (py "medium") ∧
    ∃ q, v = Some q ∧ q ∈ [py "720p"; py "1080p"; py "1440p"]
         ∧ is_Some (YtMediaQualitySelect.quality_formats !! q))).
Proof.
  intros H. unfold YtMediaQualitySelect.prompt_user_input in H.
  apply bind_returned in H as (url & w1 & _ & H).
  destruct (startswith _ url) eqn:Hs; cbn [negb] in H.
  2:{ apply bind_returned in H as (? & ? & _ & H). unfold ret in H.
      simplify_eq. by left. }
  apply bind_returned in H as (line & w2 & _ & H).
  case_bool_decide as Hf; cbn [negb] in H.
  2:{ apply bind_returned in H as (? & ? & _ & H). unfold ret in H.
      simplify_eq. by left. }
  destruct (decide (lower env (strip line) = py "mp3")) as [Hmp3|Hmp3].
  - apply bind_returned in H as (line' & w3 & _ & H).
    case_bool_decide as Hq; cbn [negb] in H.
    2:{ apply bind_returned in H as (? & ? & _ & H). unfold ret in H.
        simplify_eq. by left. }
    unfold ret in H. simplify_eq. right. split; [eauto|]. left.
    rewrite Hmp3. split_and!; [done..|]. eexists. split_and!; [done..|].
    apply elem_of_cons in Hq as [->|Hq]; [by eexists|].
    apply elem_of_cons in Hq as [->|Hq]; [by eexists|].
    apply elem_of_cons in Hq as [->|Hq]; [by eexists|].
    by apply elem_of_nil in Hq.
  - apply bind_returned in H as (line' & w3 & _ & H).
    case_bool_decide as Hq; cbn [negb] in H.
    2:{ apply bind_returned in H as (? & ? & _ & H). unfold ret in H.
        simplify_eq. by left. }
    unfold ret in H. simplify_eq. right. split; [eauto|]. right.
    split_and!; [|done|].
    + apply elem_of_cons in Hf as [?|Hf]; [done|].
      apply elem_of_cons in Hf as [->|Hf]; [done|].
      by apply elem_of_nil in Hf.
    + eexists. split_and!; [done..|].
      apply elem_of_cons in Hq as [->|Hq]; [by eexists|].
      apply elem_of_cons in Hq as [->|Hq]; [by eexists|].
      apply elem_of_cons in Hq as [->|Hq]; [by eexists|].
      by apply elem_of_nil in Hq.
Qed.

(** The user types a URL, [MP3] and [High]. *)
Lemma qualityselect_prompt_user_input_valid_witness :
  let u := Some (py "https://www.youtube.com/watch?v=1") in
  let f := Some (py "mp3") in
  let a := Some (py "high") in
  let v := @None str in
  (u = None ∧ f = None ∧ a = None ∧ v = None) ∨
  (∃ url, u = Some url ∧ startswith (py "https://www.youtube.com/") url = true) ∧
  ((f = Some (py "mp3") ∧ v = None ∧
    ∃ q, a = Some q ∧ q ∈ [py "low"; py "medium"; py "high"]
         ∧ is_Some (YtMediaQualitySelect.bitrates !! q)) ∨
   (f = Some (py "mp4") ∧ a = Some (py "medium") ∧
    ∃ q, v = Some q ∧ q ∈ [py "720p"; py "1080p"; py "1440p"]
         ∧ is_Some (YtMediaQualitySelect.quality_formats !! q))).
Proof.
  intros u f a v.
  apply (qualityselect_prompt_user_input_valid offline_env
           (typed ["https://www.youtube.com/watch?v=1"; "MP3"; " High"]%string)
           u f a v
           (snd (YtMediaQualitySelect.prompt_user_input offline_env
                   (typed ["https://www.youtube.com/watch?v=1"; "MP3"; " High"]%string)))).
  by vm_compute.
Defined.

(** ** Edge cases of a download *)

(** X13: in [ytmediadownload.py], a video whose title is the empty string
    is downloaded and then left alone: after ["Download complete."] the
    loop goes straight to the question whether to continue, so nothing is
    converted and the downloaded file is not removed. *)
Theorem empty_title_skips_conversion
    (env : Env) (download_path : Path) (url format_choice : str)
    (info : gmap str str) (fs' : gset Path) (w0 w : World) :
  let opts := YtMediaDownload.ydl_opts download_path format_choice in
  YtMediaDownload.prompt_user_input env w0 = (Returned (url, format_choice), w) →
  extract_info env (length (trace w)) opts url = Succeeded info →
  info !! py "title" = Some ([] : str) →
  download env (length (trace w) + 1) opts [url] (files w) = (Succeeded tt, fs') →
  YtMediaDownload.main_loop_body env download_path w0
  = YtMediaDownload.ask_to_continue env
      (emit (Logged INFO (py "Download complete."))
         (set_files fs'
            (emit (Downloaded opts [url]) (emit (ExtractedInfo opts url) w)))).
Proof.
  intros opts Hprompt Hinfo Htitle Hdl.
  unfold YtMediaDownload.main_loop_body, YtMediaDownload.ask_to_continue.
  unfold bind at 1. rewrite Hprompt. unfold bind at 1.
  unfold YtMediaDownload.download_media, try_except, bind at 1.
  unfold ydl_extract_info. fold opts. rewrite Hinfo.
  unfold bind at 1, ydl_download. cbn [emit trace files].
  rewrite length_app. cbn [length]. rewrite Hdl.
  unfold dict_get. rewrite Htitle.
  destruct (decide (format_choice = py "mp3")); reflexivity.
Qed.

Lemma empty_title_skips_conversion_witness :
  let env := online_env [] in
  let dp := (home env / py "Downloads")%path in
  let w0 := typed ["https://www.youtube.com/watch?v=1"; "mp3"; "no"]%string in
  let w := snd (YtMediaDownload.prompt_user_input env w0) in
  let opts := YtMediaDownload.ydl_opts dp (py "mp3") in
  YtMediaDownload.main_loop_body env dp w0
  = YtMediaDownload.ask_to_continue env
      (emit (Logged INFO (py "Download complete."))
         (set_files (files w ∪ {[ (dp / py "audio.m4a")%path ]})
            (emit (Downloaded opts [py "https://www.youtube.com/watch?v=1"])
               (emit (ExtractedInfo opts (py "https://www.youtube.com/watch?v=1")) w)))).
Proof.
  intros env dp w0 w opts.
  apply (empty_title_skips_conversion env dp _ (py "mp3") {[ py "title" := [] ]}).
  - by vm_compute.
  - reflexivity.
  - by vm_compute.
  - reflexivity.
Defined.

Lemma replace_no_old old u s : u ≠ old → old ∉ replace old [u] s.
Proof.
  intros Hu. rewrite replace_fmap, list_elem_of_fmap. intros (c & Hc & _).
  by case_decide.
Qed.

Lemma replace_keeps_absent c old u s :
  c ∉ s → c ≠ u → c ∉ replace old [u] s.
Proof.
  intros Hc Hu. rewrite replace_fmap, list_elem_of_fmap. intros (c' & Heq & Hin).
  case_decide; by subst.
Qed.

(** The title the two later scripts keep holds no ['/'] and no ['\']. *)
Lemma inline_sanitized title :
  (sep ∉ replace 92%N (py "_") (replace 47%N (py "_") title)) ∧
  (92%N ∉ replace 92%N (py "_") (replace 47%N (py "_") title)).
Proof.
  split.
  - apply replace_keeps_absent; [|done]. by apply replace_no_old.
  - by apply replace_no_old.
Qed.


(** X15: [convert_to_mp3] of [ytmediaqualityselect.py], once the
    allocator has returned the path [p] for the MP3: [p] does not exist,
    ffmpeg is run once, on the input file and [p], with the bitrate of the
    quality table, and its outcome decides the rest.  When ffmpeg
    succeeds the conversion is logged and [p] is returned; when ffmpeg
    raises [ffmpeg.Error] the error is logged with its message and [None]
    is returned. *)
Theorem convert_to_mp3_follows_ffmpeg env input_file dp title quality w fuel p :
  generate_unique_filename fuel (files w) dp title (py "mp3") = Some p →
  exists_ (files w) p = false ∧
  YtMediaQualitySelect.convert_to_mp3 env input_file dp title quality w =
    let kwargs := [(py "audio_bitrate", YtMediaQualitySelect.bitrate_of quality)] in
    let ran := emit (RanFfmpeg (path_str input_file) (path_str p) kwargs) w in
    match ffmpeg_run env (length (trace w)) (path_str input_file) (path_str p)
            kwargs (files w) with
    | (Succeeded _, fs') =>
        (Returned (Some p),
         emit (Logged INFO (py "Conversion to MP3 with " ++ str_of quality
                            ++ py " quality complete."))
           (set_files fs' ran))
    | (Failed msg, fs') =>
        (Returned None,
         emit (Logged ERROR (py "Conversion error: " ++ msg)) (set_files fs' ran))
    end.
Proof.
  intros Hp.
  destruct (generate_unique_filename_spec (files w) dp title (py "mp3"))
    as (k & Hk & Hout & _ & Hret & Honly).
  apply Honly in Hp as ->. split.
  - unfold exists_. by rewrite bool_decide_eq_false_2.
  - unfold YtMediaQualitySelect.convert_to_mp3, bind at 1, unique_filename.
    rewrite Hret by lia. unfold try_except, bind, ffmpeg. cbv zeta.
    by destruct (ffmpeg_run env _ _ _ _ _) as [[msg|[]] fs'].
Qed.

(** [audio.m4a] is converted at high quality in a directory that holds
    nothing else; the allocator returns [t.mp3]. *)
Lemma convert_to_mp3_follows_ffmpeg_witness :
  let env := online_env (py "t") in
  let dp := (home env / py "Downloads")%path in
  let audio := (dp / py "audio.m4a")%path in
  let p := (dp / py "t.mp3")%path in
  let w := set_files {[ dp; audio ]} (typed []) in
  exists_ (files w) p = false ∧
  YtMediaQualitySelect.convert_to_mp3 env audio dp (py "t") (Some (py "high")) w =
    (Returned (Some p),
     emit (Logged INFO (py "Conversion to MP3 with high quality complete."))
       (set_files ({[ dp; audio ]} ∪ {[ parse_path (path_str p) ]})
          (emit (RanFfmpeg (path_str audio) (path_str p) [(py "audio_bitrate", py "320k")])
             w))).
Proof.
  intros env dp audio p w.
  apply (convert_to_mp3_follows_ffmpeg env audio dp (py "t") (Some (py "high")) w 1 p).
  by vm_compute.
Defined.



(** X17: a title that is not empty, once sanitized by [sanitize_filename]
    or by the two [replace] calls of [download_video], keeps the
    allocated MP3 or MP4 file directly inside the download directory. *)
Theorem sanitized_title_in_directory fs dp raw title ext fuel p :
  title = YtMediaDownload.sanitize_filename raw ∨
  title = replace 92%N (py "_") (replace 47%N (py "_") raw) →
  raw ≠ [] → ext = py "mp3" ∨ ext = py "mp4" →
  generate_unique_filename fuel fs dp title ext = Some p →
  root p = root dp ∧ ∃ k, parts p = parts dp ++ [title ++ infix_of k ++ ext].
Proof.
  intros Htitle Hraw Hext Hp.
  assert (Hsep : sep ∉ title).
  { destruct Htitle as [-> | ->]; [|apply inline_sanitized].
    rewrite sanitize_filename_fmap, list_elem_of_fmap. intros (c & Hc & _).
    apply (sanitize_char_valid c). rewrite <-Hc.
    apply (bool_decide_eq_true (sep ∈ YtMediaDownload.invalid_chars)). by vm_compute. }
  assert (Hne : title ≠ []).
  { destruct raw as [|c raw]; [done|]. destruct Htitle as [-> | ->].
    - by rewrite sanitize_filename_fmap.
    - change (py "_") with [95%N]. by rewrite !replace_fmap. }
  assert (Hse : sep ∉ ext).
  { destruct Hext as [-> | ->];
      [apply (bool_decide_eq_false (sep ∈ py "mp3"))
      |apply (bool_decide_eq_false (sep ∈ py "mp4"))]; by vm_compute. }
  destruct (generate_unique_filename_spec fs dp title ext) as (k & _ & _ & _ & _ & Honly).
  apply Honly in Hp as ->. rewrite candidate_in_directory by done.
  split; [done|by exists k].
Qed.

Lemma sanitized_title_in_directory_witness :
  let dp := parse_path (py "/home/u/Downloads") in
  let p := (dp / py "a_b_ c.mp3")%path in
  root p = root dp ∧
  ∃ k, parts p = parts dp ++ [py "a_b_ c" ++ infix_of k ++ py "mp3"].
Proof.
  intros dp p.
  apply (sanitized_title_in_directory ∅ dp (py "a/b: c") (py "a_b_ c") (py "mp3") 1 p).
  - left. by vm_compute.
  - done.
  - by left.
  - by vm_compute.
Defined.

(** ** Why [main] returns *)

Lemma py_process_returns_on_no env dp url fc aq vq w w' :
  YtMediaDownloadPy.process env dp url fc aq vq w = (Returned (Some tt), w') →
  ∃ w1 line,
    input (py "Do you want to convert another video? (yes/no): ") w1
      = (Returned line, w') ∧
    lower env (strip line) = py "no".
Proof.
  intros H. unfold YtMediaDownloadPy.process in H.
  apply bind_returned in H as ([fp t] & w1 & _ & H).
  apply bind_returned in H as ([] & w2 & _ & H).
  apply bind_returned in H as (another & w3 & Hloop & H).
  destruct another; unfold ret in H; simplify_eq.
  apply while_true_returned in Hloop as (w4 & Hbody).
  apply bind_returned in Hbody as (line & w5 & Hin & Hbody).
  destruct (decide (lower env (strip line) = py "yes")); [done|].
  destruct (decide (lower env (strip line) = py "no")).
  - unfold ret in Hbody. simplify_eq. eauto.
  - by apply bind_returned in Hbody as (? & ? & _ & ?).
Qed.

(** X18: [main] of [ytmediadownload.py.py] returns only when ffmpeg is
    missing or when the line just read at the last question is ['no']
    once stripped and lowered. *)
Theorem py_main_returns_on_no env w w' :
  YtMediaDownloadPy.main env w = (Returned tt, w') →
  truthy (which env (py "ffmpeg")) = false ∨
  ∃ w1 line,
    input (py "Do you want to convert another video? (yes/no): ") w1
      = (Returned line, w') ∧
    lower env (strip line) = py "no".
Proof.
  unfold YtMediaDownloadPy.main.
  destruct (truthy (which env (py "ffmpeg"))); [|by left].
  cbn [negb]. intros H. right.
  apply while_true_returned in H as [w1 H].
  unfold YtMediaDownloadPy.main_loop_body in H.
  apply bind_returned in H as (url & w2 & _ & H).
  destruct (startswith _ url); cbn [negb] in H.
  2:{ apply bind_returned in H as (? & ? & _ & H). by unfold ret in H. }
  apply bind_returned in H as (line & w3 & _ & H).
  case_bool_decide; cbn [negb] in H.
  2:{ apply bind_returned in H as (? & ? & _ & H). by unfold ret in H. }
  destruct (decide (lower env (strip line) = py "mp3")).
  - apply bind_returned in H as (line' & w4 & _ & H).
    case_bool_decide; cbn [negb] in H.
    2:{ apply bind_returned in H as (? & ? & _ & H). by unfold ret in H. }
    by apply py_process_returns_on_no in H.
  - apply bind_returned in H as (line' & w4 & _ & H).
    case_bool_decide; cbn [negb] in H.
    2:{ apply bind_returned in H as (? & ? & _ & H). by unfold ret in H. }
    by apply py_process_returns_on_no in H.
Qed.

Lemma py_main_returns_on_no_witness :
  let w := typed ["https://www.youtube.com/watch?v=1"; "mp3"; "low"; "maybe"; "No"]%string in
  truthy (which offline_env (py "ffmpeg")) = false ∨
  ∃ w1 line,
    input (py "Do you want to convert another video? (yes/no): ") w1
      = (Returned line, snd (YtMediaDownloadPy.main offline_env w)) ∧
    lower offline_env (strip line) = py "no".
Proof.
  intros w. apply (py_main_returns_on_no offline_env w). by vm_compute.
Defined.

(** X19: [main] of [ytmediaqualityselect.py] returns only when ffmpeg is
    missing or when the line just read at the last question is anything
    but ['yes'] once stripped and lowered. *)
Theorem qualityselect_main_returns_unless_yes env w w' :
  YtMediaQualitySelect.main env w = (Returned tt, w') →
  truthy (which env (py "ffmpeg")) = false ∨
  ∃ w1 line,
    input (py "Do you want to convert another video? (yes/no): ") w1
      = (Returned line, w') ∧
    lower env (strip line) ≠ py "yes".
Proof.
  unfold YtMediaQualitySelect.main.
  intros H. apply bind_returned in H as ([] & w0 & _ & H).
  destruct (truthy (which env (py "ffmpeg"))); [|by left].
  cbn [negb] in H. right.
  apply while_true_returned in H as [w1 H].
  unfold YtMediaQualitySelect.main_loop_body in H.
  apply bind_returned in H as ([[[url fc] aq] vq] & w2 & _ & H).
  destruct url as [[|c url]|]; [by unfold ret in H| |by unfold ret in H].
  apply bind_returned in H as ([fp t] & w3 & _ & H).
  apply bind_returned in H as ([] & w4 & _ & H).
  apply bind_returned in H as (line & w5 & Hin & H).
  case_decide; [|by unfold ret in H].
  unfold ret in H. simplify_eq. eauto.
Qed.

Lemma qualityselect_main_returns_unless_yes_witness :
  let w := typed ["https://www.youtube.com/watch?v=1"; "mp3"; "low"; "maybe"]%string in
  truthy (which offline_env (py "ffmpeg")) = false ∨
  ∃ w1 line,
    input (py "Do you want to convert another video? (yes/no): ") w1
      = (Returned line, snd (YtMediaQualitySelect.main offline_env w)) ∧
    lower offline_env (strip line) ≠ py "yes".
Proof.
  intros w. apply (qualityselect_main_returns_unless_yes offline_env w). by vm_compute.
Defined.

(** An [unlink] inside [try: ... except Exception as e], the handler
    logging the error: it returns.  Either the unlink has succeeded,
    nothing is logged and the path is gone, or it has raised, the error
    is logged and no file has changed. *)
Lemma unlink_caught p prefix w :
  ∃ w' evs,
    try_except (unlink p) (fun e => Some (logging ERROR (prefix ++ exn_str e))) w
      = (Returned tt, w') ∧
    stdin w' = stdin w ∧
    trace w' = trace w ++ Unlinked p :: evs ∧
    ((evs = [] ∧ files w' = files w ∖ {[ p ]}) ∨
     (∃ msg, evs = [Logged ERROR (prefix ++ msg)]) ∧ files w' = files w) ∧
    (exists_ (files w) p = false → evs ≠ []).
Proof.
  unfold try_except, unlink.
  destruct (exists_ (files w) p).
  - eexists _, []. split_and!; [reflexivity|done|done|by left|done].
  - eexists _, [_].
    split_and!; [reflexivity|done| |right; split; [by eexists|done]|done].
    cbn. by rewrite <-app_assoc.
Qed.

(** X20: in [ytmediadownload.py], once the download of an MP3 with a
    title that is not empty has returned [audio.m4a] and [convert_to_mp3]
    has returned, with the new path or with [None] after a failed
    conversion, the turn logs that result, calls [unlink] on [audio.m4a]
    and goes on to the question whether to continue.  Either the unlink
    has succeeded, and then nothing more is logged, [audio.m4a] is gone
    and no other file has changed since the conversion; or it has raised,
    as it does when [audio.m4a] does not exist, and then the error is
    caught and logged and no file has changed.  So the download is
    unlinked after a failed conversion just as after a successful one. *)
Theorem mp3_turn_removes_download
    (env : Env) (dp : Path) (url title : str) (w0 w w2 w3 : World)
    (mp3_file : option Path) :
  let audio := (dp / py "audio.m4a")%path in
  YtMediaDownload.prompt_user_input env w0 = (Returned (url, py "mp3"), w) →
  YtMediaDownload.download_media env url dp (py "mp3") w
    = (Returned (Some audio, Some title), w2) →
  title ≠ [] →
  YtMediaDownload.convert_to_mp3 env audio dp title
    (emit (Logged INFO (py "Attempting to convert " ++ path_str audio
                        ++ py " to MP3...")) w2)
    = (Returned mp3_file, w3) →
  ∃ w4 evs,
    YtMediaDownload.main_loop_body env dp w0
      = YtMediaDownload.ask_to_continue env w4 ∧
    stdin w4 = stdin w3 ∧
    trace w4 = trace w3
      ++ [match mp3_file with
          | Some mp3_file => Logged INFO (py "MP3 file saved as: " ++ path_str mp3_file)
          | None => Logged ERROR (py "Failed to convert to MP3.")
          end;
          Unlinked audio]
      ++ evs ∧
    ((evs = [] ∧ files w4 = files w3 ∖ {[ audio ]}) ∨
     (∃ msg, evs = [Logged ERROR (py "Error removing temporary file: " ++ msg)])
     ∧ files w4 = files w3) ∧
    (exists_ (files w3) audio = false → evs ≠ []).
Proof.
  intros audio Hprompt Hdl Htitle Hconv.
  destruct title as [|c title]; [done|].
  set (w2' := emit (Logged INFO (py "Attempting to convert "
                                 ++ path_str audio ++ py " to MP3...")) w2) in *.
  set (w3' := match mp3_file with
              | Some mp3_file =>
                  emit (Logged INFO (py "MP3 file saved as: " ++ path_str mp3_file)) w3
              | None => emit (Logged ERROR (py "Failed to convert to MP3.")) w3
              end).
  destruct (unlink_caught audio (py "Error removing temporary file: ") w3')
    as (w4 & evs & Hun & Hstdin & Htrace & Hevs & Hmissing).
  assert (Hw3' : files w3' = files w3 ∧ stdin w3' = stdin w3).
  { subst w3'. by destruct mp3_file. }
  destruct Hw3' as [Hf3 Hs3]. rewrite Hf3 in Hevs, Hmissing. rewrite Hs3 in Hstdin.
  exists w4, evs. split_and!; [|done| |done|done].
  - unfold YtMediaDownload.main_loop_body, YtMediaDownload.ask_to_continue.
    rewrite (bind_eq _ _ _ _ _ Hprompt). rewrite (bind_eq _ _ _ _ _ Hdl).
    rewrite decide_True by done.
    rewrite (bind_eq _ _ w2 tt w4); [reflexivity|].
    rewrite (bind_eq _ _ w2 tt w2') by reflexivity.
    rewrite (bind_eq _ _ _ _ _ Hconv).
    rewrite (bind_eq _ _ w3 tt w3') by (subst w3'; by destruct mp3_file).
    exact Hun.
  - rewrite Htrace. subst w3'. destruct mp3_file; cbn; by rewrite <-app_assoc.
Qed.

(** The download has written [audio.m4a] and ffmpeg converts it. *)
Lemma mp3_turn_removes_download_witness :
  let env := online_env (py "t") in
  let dp := (home env / py "Downloads")%path in
  let audio := (dp / py "audio.m4a")%path in
  let w0 := typed ["https://www.youtube.com/watch?v=1"; "mp3"; "no"]%string in
  let w := snd (YtMediaDownload.prompt_user_input env w0) in
  let w2 := snd (YtMediaDownload.download_media env
                   (py "https://www.youtube.com/watch?v=1") dp (py "mp3") w) in
  let w3 := snd (YtMediaDownload.convert_to_mp3 env audio dp (py "t")
                   (emit (Logged INFO (py "Attempting to convert " ++ path_str audio
                                       ++ py " to MP3...")) w2)) in
  ∃ w4 evs,
    YtMediaDownload.main_loop_body env dp w0
      = YtMediaDownload.ask_to_continue env w4 ∧
    stdin w4 = stdin w3 ∧
    trace w4 = trace w3
      ++ [Logged INFO (py "MP3 file saved as: " ++ path_str (dp / py "t.mp3")%path);
          Unlinked audio]
      ++ evs ∧
    ((evs = [] ∧ files w4 = files w3 ∖ {[ audio ]}) ∨
     (∃ msg, evs = [Logged ERROR (py "Error removing temporary file: " ++ msg)])
     ∧ files w4 = files w3) ∧
    (exists_ (files w3) audio = false → evs ≠ []).
Proof.
  intros env dp audio w0 w w2 w3.
  apply (mp3_turn_removes_download env dp
           (py "https://www.youtube.com/watch?v=1") (py "t") w0 w w2 w3
           (Some (dp / py "t.mp3")%path)).
  - by vm_compute.
  - by vm_compute.
  - done.
  - by vm_compute.
Defined.

(** X21: in [ytmediaqualityselect.py], when [download_video] has returned
    [(None, None)] the rest of the turn is the last question and nothing
    else: no path is allocated, ffmpeg is not run and nothing is unlinked
    or renamed. *)
Theorem qualityselect_failed_download_skips
    (env : Env) (dp : Path) (url : str) (fc aq vq : option str) (w0 w w1 : World) :
  YtMediaQualitySelect.prompt_user_input env w0 = (Returned (Some url, fc, aq, vq), w) →
  url ≠ [] →
  YtMediaQualitySelect.download_video env url dp fc aq vq w
    = (Returned (None, None), w1) →
  YtMediaQualitySelect.main_loop_body env dp w0 = qualityselect_ask_to_continue env w1.
Proof.
  intros Hprompt Hurl Hdl. unfold YtMediaQualitySelect.main_loop_body.
  rewrite (bind_eq _ _ _ _ _ Hprompt). destruct url as [|c url]; [done|].
  by rewrite (bind_eq _ _ _ _ _ Hdl).
Qed.

Lemma qualityselect_failed_download_skips_witness :
  let env := offline_env in
  let dp := (home env / py "Downloads")%path in
  let url := py "https://www.youtube.com/watch?v=1" in
  let w0 := typed ["https://www.youtube.com/watch?v=1"; "mp4"; "1080p"; "yes"]%string in
  let w := snd (YtMediaQualitySelect.prompt_user_input env w0) in
  let w1 := snd (YtMediaQualitySelect.download_video env url dp (Some (py "mp4"))
                   (Some (py "medium")) (Some (py "1080p")) w) in
  YtMediaQualitySelect.main_loop_body env dp w0 = qualityselect_ask_to_continue env w1.
Proof.
  intros env dp url w0 w w1.
  apply (qualityselect_failed_download_skips env dp url (Some (py "mp4"))
           (Some (py "medium")) (Some (py "1080p")) w0 w w1).
  - by vm_compute.
  - done.
  - by vm_compute.
Defined.

(** In [ytmediadownload.py.py], when [download_video] has returned
    [(None, None)] the rest of the turn is the loop that asks whether to
    convert another video and nothing else. *)
Theorem py_failed_download_skips
    (env : Env) (dp : Path) (url : str) (fc aq vq : option str) (w w1 : World) :
  YtMediaDownloadPy.download_video env url dp fc aq vq w
    = (Returned (None, None), w1) →
  YtMediaDownloadPy.process env dp url fc aq vq w = py_ask_another env w1.
Proof.
  intros Hdl. unfold YtMediaDownloadPy.process.
  by rewrite (bind_eq _ _ _ _ _ Hdl).
Qed.

Lemma py_failed_download_skips_witness :
  let env := offline_env in
  let dp := (home env / py "Downloads")%path in
  let url := py "https://www.youtube.com/watch?v=1" in
  let w := typed ["no"]%string in
  let w1 := snd (YtMediaDownloadPy.download_video env url dp (Some (py "mp3"))
                   (Some (py "low")) None w) in
  YtMediaDownloadPy.process env dp url (Some (py "mp3")) (Some (py "low")) None w
  = py_ask_another env w1.
Proof.
  intros env dp url w w1.
  apply (py_failed_download_skips env dp url (Some (py "mp3")) (Some (py "low")) None w w1).
  by vm_compute.
Defined.
